(** * OncoGenie: the PubMed -> Bedrock pipeline of [index.py]

    A shallow embedding of the Lambda handler and its helpers
    ([build_search_queries], [search_pubmed], [fetch_abstracts],
    [invoke_bedrock], [handler]) and the properties of the pipeline.

    Conventions of the embedding.
    - Python text is a [string].  Whether a text can be encoded as UTF-8
      (a [str] that holds a lone surrogate cannot) is asked of the runtime,
      [encodable]: [urlencode] and [print] raise UnicodeEncodeError on a
      text that cannot.
    - What [json.loads] returns is a [pyval].  A [float] is a [spec_float]
      in canonical form, an IEEE binary64 value.
    - Exceptions are values of [exn]; only subclasses of [Exception] are
      modelled, which is what the [except Exception] clauses catch.
    - The network and the inference service are an oracle, [world], which
      answers each request given the requests made before it.  A request
      records the variable fields of the call; [json.dumps] escapes what
      cannot be encoded and never fails on the values it is given here.
    - [print] is modelled where it writes response text as it is (the
      diagnostic of [invoke_bedrock]).  The other prints write the [repr]
      of a list, a length, or the [str] of an exception, whose message
      quotes data through [repr]; that text is taken to be encodable and
      these prints are left out. *)

From Stdlib Require Import ZArith List String Ascii Bool Lia DecimalString.
From Stdlib Require Import Floats.SpecFloat.
Import ListNotations.

Local Open Scope string_scope.
Local Open Scope list_scope.

(** ** Text *)

Module Text.

(** The double quote, which the source writes inside its patterns. *)
Definition dquote : string := String (ascii_of_nat 34) EmptyString.

Definition newline : ascii := ascii_of_nat 10.

(** [str.isspace] on code points below 256: TAB..CR, FS..US, SPACE,
    NEL (0x85) and NBSP (0xA0). *)
Definition isspace (c : ascii) : bool :=
  let n := nat_of_ascii c in
  (((9 <=? n) && (n <=? 13)) || ((28 <=? n) && (n <=? 32))
   || (n =? 133) || (n =? 160))%nat.

Fixpoint lstrip (s : string) : string :=
  match s with
  | EmptyString => EmptyString
  | String c s' => if isspace c then lstrip s' else s
  end.

Fixpoint rstrip (s : string) : string :=
  match s with
  | EmptyString => EmptyString
  | String c s' =>
      match rstrip s' with
      | EmptyString => if isspace c then EmptyString else String c EmptyString
      | r => String c r
      end
  end.

(** [s.strip()] *)
Definition strip (s : string) : string := rstrip (lstrip s).

(** [s] without the prefix [p], when it starts with it. *)
Fixpoint drop_prefix (p s : string) : option string :=
  match p with
  | EmptyString => Some s
  | String a p' =>
      match s with
      | EmptyString => None
      | String b s' => if Ascii.eqb a b then drop_prefix p' s' else None
      end
  end.

(** [s[:n]] *)
Fixpoint take (n : nat) (s : string) : string :=
  match n, s with
  | S k, String c s' => String c (take k s')
  | _, _ => EmptyString
  end.

(** [sep.join(parts)] on strings. *)
Fixpoint join (sep : string) (parts : list string) : string :=
  match parts with
  | [] => EmptyString
  | [p] => p
  | p :: rest => p ++ sep ++ join sep rest
  end.

End Text.

(** ** The regular expressions of the source

    The patterns of [index.py] use literals, the lazy [.*?] (captured or
    not, with or without [re.DOTALL]), the greedy class [[^c]+] and one
    alternation.  [Re] implements exactly this fragment with Python's
    backtracking order: a lazy star tries the shortest repetition first,
    a greedy one the longest, alternatives are tried left to right, and
    [search] returns the leftmost match. *)

Module Re.

Inductive atom : Type :=
| Lit (s : string)              (* literal text *)
| AnyLazy (dotall capture : bool) (* [.*?], or [(.*?)] when [capture] *)
| NotPlus (c : ascii).          (* [[^c]+] *)

Definition branch : Type := list atom.

(** A pattern is a list of alternatives, [b1|b2|...]. *)
Definition regex : Type := list branch.

(** A match at the head of the text: the number of characters consumed
    and the captured groups, in order. *)
Definition hit : Type := (nat * list string)%type.

Definition dot (dotall : bool) (c : ascii) : bool :=
  dotall || negb (Ascii.eqb c Text.newline).

Fixpoint match_here (p : branch) (s : string) {struct p} : option hit :=
  match p with
  | [] => Some (0, [])
  | Lit l :: p' =>
      match Text.drop_prefix l s with
      | Some s' =>
          match match_here p' s' with
          | Some (n, gs) => Some (String.length l + n, gs)
          | None => None
          end
      | None => None
      end
  | AnyLazy dotall capture :: p' =>
      let lazy :=
        fix lazy (s : string) : option (nat * string * list string) :=
          match match_here p' s with
          | Some (n, gs) => Some (n, EmptyString, gs)
          | None =>
              match s with
              | EmptyString => None
              | String c s' =>
                  if dot dotall c then
                    match lazy s' with
                    | Some (n, g, gs) => Some (S n, String c g, gs)
                    | None => None
                    end
                  else None
              end
          end in
      match lazy s with
      | Some (n, g, gs) => Some (n, if capture then g :: gs else gs)
      | None => None
      end
  | NotPlus c :: p' =>
      let greedy :=
        fix greedy (s : string) : option hit :=
          match s with
          | EmptyString => None
          | String a s' =>
              if Ascii.eqb a c then None
              else
                match greedy s' with
                | Some (n, gs) => Some (S n, gs)
                | None =>
                    match match_here p' s' with
                    | Some (n, gs) => Some (S n, gs)
                    | None => None
                    end
                end
          end in
      greedy s
  end.

(** The first alternative that matches at the head of the text. *)
Fixpoint match_alt (r : regex) (s : string) : option hit :=
  match r with
  | [] => None
  | b :: r' =>
      match match_here b s with
      | Some h => Some h
      | None => match_alt r' s
      end
  end.

(** [re.search(r, s)]: the groups of the leftmost match. *)
Fixpoint search (r : regex) (s : string) : option (list string) :=
  match match_alt r s with
  | Some (_, gs) => Some gs
  | None =>
      match s with
      | EmptyString => None
      | String _ s' => search r s'
      end
  end.

(** [m.group(1)] *)
Definition group1 (gs : list string) : string := hd EmptyString gs.

(** Scanning for successive matches.  [skip] counts the characters of the
    current match that are still to be passed over.  None of the patterns
    of the source matches the empty text, so an empty match is treated as
    no match. *)
Fixpoint findall_from (r : regex) (s : string) (skip : nat) : list string :=
  match skip, s with
  | S k, String _ s' => findall_from r s' k
  | S _, EmptyString => []
  | O, _ =>
      match match_alt r s, s with
      | Some (S n, gs), String _ s' => group1 gs :: findall_from r s' n
      | _, String _ s' => findall_from r s' 0
      | _, EmptyString => []
      end
  end.

(** [re.findall(r, s)] for a pattern with one group. *)
Definition findall (r : regex) (s : string) : list string :=
  findall_from r s 0.

Fixpoint sub_from (r : regex) (s : string) (skip : nat) : string :=
  match skip, s with
  | S k, String _ s' => sub_from r s' k
  | S _, EmptyString => EmptyString
  | O, _ =>
      match match_alt r s, s with
      | Some (S n, _), String _ s' => sub_from r s' n
      | _, String c s' => String c (sub_from r s' 0)
      | _, EmptyString => EmptyString
      end
  end.

(** [re.sub(r, "", s)]: every match removed. *)
Definition remove (r : regex) (s : string) : string := sub_from r s 0.

End Re.

(** ** Python values, exceptions and the library functions taken as given *)

#[local] Unset Elimination Schemes.
Inductive pyval : Type :=
| PNone
| PBool (b : bool)
| PInt (z : Z)
| PFloat (f : spec_float)
| PStr (s : string)
| PList (l : list pyval)
| PDict (d : list (string * pyval)).
#[local] Set Elimination Schemes.

(** A [dict] with string keys: the items in insertion order, keys distinct. *)
Definition pydict : Type := list (string * pyval).

Inductive exn : Type :=
| TypeError
| ValueError
| AttributeError
| KeyError
| IndexError
| OverflowError
| UnboundLocalError
| UnicodeEncodeError
| JSONDecodeError
| ClientError
| OtherError (name : string). (* URLError, timeout, UnicodeDecodeError, ... *)

Definition is_JSONDecodeError (e : exn) : bool :=
  match e with JSONDecodeError => true | _ => false end.

Inductive result (A : Type) : Type :=
| Ok (a : A)
| Raise (e : exn).
Arguments Ok {A} a.
Arguments Raise {A} e.

Definition rbind {A B : Type} (m : result A) (k : A -> result B) : result B :=
  match m with
  | Ok a => k a
  | Raise e => Raise e
  end.

Declare Scope py_scope.
Delimit Scope py_scope with py.
Notation "x <- m ;; k" := (rbind m (fun x => k))
  (at level 61, m at next level, right associativity) : py_scope.

(** What the model takes from the Python runtime without looking inside:
    the JSON reader (which raises JSONDecodeError on text that is not JSON,
    and ValueError or RecursionError on some that is), the UTF-8 encoder,
    the numeric readers of [float] and [int] on text, and the two [str]
    conversions.  Every theorem holds for all of them. *)
Record runtime : Type := {
  json_loads : string -> result pyval;      (* [json.loads(text)] *)
  encodable : string -> bool;               (* [text.encode()] succeeds *)
  float_of_str : string -> option spec_float; (* [None]: ValueError *)
  int_of_str : string -> option Z;          (* [None]: ValueError *)
  str_of : pyval -> string;                 (* [str(v)], [v] not a [str] *)
  exn_str : exn -> string                   (* [str(e)] *)
}.

Module Py.

Local Open Scope py_scope.

Definition prec : Z := 53.
Definition emax : Z := 1024.

(** [float(z)] for an [int]: rounded to nearest even; an [int] beyond the
    range of a double raises OverflowError. *)
Definition float_of_int (z : Z) : result spec_float :=
  match binary_normalize prec emax z 0 false with
  | S754_infinity _ => Raise OverflowError
  | f => Ok f
  end.

(** The double of a small integer literal of the source. *)
Definition lit (z : Z) : spec_float := binary_normalize prec emax z 0 false.

(** [int(f)] for a [float]: truncation towards zero. *)
Definition int_of_float (f : spec_float) : result Z :=
  match f with
  | S754_zero _ => Ok 0%Z
  | S754_nan => Raise ValueError
  | S754_infinity _ => Raise OverflowError
  | S754_finite s m e =>
      let a := match e with
               | Zneg k => Z.shiftr (Zpos m) (Zpos k)
               | _ => Z.shiftl (Zpos m) e
               end in
      Ok (if s then Z.opp a else a)
  end.

Definition float_ (rt : runtime) (v : pyval) : result spec_float :=
  match v with
  | PFloat f => Ok f
  | PInt z => float_of_int z
  | PBool b => Ok (lit (if b then 1 else 0))
  | PStr s => match float_of_str rt s with
              | Some f => Ok f
              | None => Raise ValueError
              end
  | PNone | PList _ | PDict _ => Raise TypeError
  end.

Definition int_ (rt : runtime) (v : pyval) : result Z :=
  match v with
  | PInt z => Ok z
  | PBool b => Ok (if b then 1 else 0)%Z
  | PFloat f => int_of_float f
  | PStr s => match int_of_str rt s with
              | Some z => Ok z
              | None => Raise ValueError
              end
  | PNone | PList _ | PDict _ => Raise TypeError
  end.

(** [bool(v)] *)
Definition truthy (v : pyval) : bool :=
  match v with
  | PNone => false
  | PBool b => b
  | PInt z => negb (Z.eqb z 0)
  | PFloat f => negb (SFeqb f (S754_zero false))
  | PStr s => negb (String.eqb s EmptyString)
  | PList l => match l with [] => false | _ => true end
  | PDict d => match d with [] => false | _ => true end
  end.

(** [v == s] for a string literal [s]. *)
Definition eq_str (v : pyval) (s : string) : bool :=
  match v with
  | PStr t => String.eqb t s
  | _ => false
  end.

(** [v in (s1, s2, ...)] for string literals. *)
Definition in_strs (v : pyval) (ss : list string) : bool :=
  existsb (eq_str v) ss.

Fixpoint lookup (d : pydict) (k : string) : option pyval :=
  match d with
  | [] => None
  | (k', v) :: d' => if String.eqb k' k then Some v else lookup d' k
  end.

(** [d.get(k, default)] *)
Definition dict_get (d : pydict) (k : string) (default : pyval) : pyval :=
  match lookup d k with
  | Some v => v
  | None => default
  end.

(** [d[k] = v]: an existing key keeps its place, a new one goes last. *)
Fixpoint dict_set (d : pydict) (k : string) (v : pyval) : pydict :=
  match d with
  | [] => [(k, v)]
  | (k', v') :: d' =>
      if String.eqb k' k then (k', v) :: d' else (k', v') :: dict_set d' k v
  end.

(** [v.get(k, default)] on any value: only a [dict] has [get]. *)
Definition get (v : pyval) (k : string) (default : pyval) : result pyval :=
  match v with
  | PDict d => Ok (dict_get d k default)
  | _ => Raise AttributeError
  end.

(** [v[k]] with a string subscript. *)
Definition getitem_str (v : pyval) (k : string) : result pyval :=
  match v with
  | PDict d => match lookup d k with
               | Some x => Ok x
               | None => Raise KeyError
               end
  | _ => Raise TypeError
  end.

(** [v[0]] *)
Definition getitem_0 (v : pyval) : result pyval :=
  match v with
  | PList l => match l with
               | x :: _ => Ok x
               | [] => Raise IndexError
               end
  | PStr s => match s with
              | String c _ => Ok (PStr (String c EmptyString))
              | EmptyString => Raise IndexError
              end
  | PDict _ => Raise KeyError
  | _ => Raise TypeError
  end.

(** [v[k] = x] with a string subscript. *)
Definition setitem_str (v : pyval) (k : string) (x : pyval) : result pyval :=
  match v with
  | PDict d => Ok (PDict (dict_set d k x))
  | _ => Raise TypeError
  end.

Fixpoint chars (s : string) : list pyval :=
  match s with
  | EmptyString => []
  | String c s' => PStr (String c EmptyString) :: chars s'
  end.

(** The items [for x in v] goes through. *)
Definition iter (v : pyval) : result (list pyval) :=
  match v with
  | PList l => Ok l
  | PStr s => Ok (chars s)
  | PDict d => Ok (map (fun kv => PStr (fst kv)) d)
  | _ => Raise TypeError
  end.

(** What an f-string puts for [{v}]. *)
Definition format (rt : runtime) (v : pyval) : string :=
  match v with
  | PStr s => s
  | _ => str_of rt v
  end.

Fixpoint strs (l : list pyval) : result (list string) :=
  match l with
  | [] => Ok []
  | PStr s :: l' => ss <- strs l' ;; Ok (s :: ss)
  | _ :: _ => Raise TypeError
  end.

(** [sep.join(v)]: every item must be a [str]. *)
Definition join (sep : string) (v : pyval) : result string :=
  items <- iter v ;;
  ss <- strs items ;;
  Ok (Text.join sep ss).

End Py.

(** ** [build_search_queries] *)

Local Open Scope py_scope.

(** The query of one family-history entry. *)
Definition hereditary (rt : runtime) (condition : pyval) : string :=
  "hereditary " ++ Py.format rt condition ++ " cancer genetic risk".

(** [queries.append(q)] when [c] holds. *)
Definition append_if (c : bool) (q : string) (queries : list string) :
  list string :=
  if c then queries ++ [q] else queries.

Definition fallback_query : string :=
  "lifestyle cancer risk prevention epidemiology".

Definition build_search_queries (rt : runtime) (user_data : pyval) :
  result (list string) :=
  let queries : list string := [] in
  smoking <- Py.get user_data "smokingStatus" PNone ;;
  let queries := append_if (Py.eq_str smoking "current")
                   "smoking lung cancer risk factors epidemiology" queries in
  smoking <- Py.get user_data "smokingStatus" PNone ;;
  let queries := append_if (Py.eq_str smoking "former")
                   "former smoker cancer risk reduction" queries in
  alcohol <- Py.get user_data "alcoholConsumption" (PStr "none") ;;
  let queries := append_if (Py.in_strs alcohol ["moderate"; "heavy"])
                   "alcohol consumption cancer risk liver colorectal" queries in
  bmi_v <- Py.get user_data "bmi" (PInt 22) ;;
  bmi <- Py.float_ rt bmi_v ;;
  let queries :=
    if SFleb (Py.lit 30) bmi then
      queries ++ ["obesity BMI cancer risk endometrial breast colorectal"]
    else if SFleb (Py.lit 25) bmi then
      queries ++ ["overweight cancer risk metabolic syndrome"]
    else queries in
  diet <- Py.get user_data "dietaryPattern" (PStr EmptyString) ;;
  let queries :=
    if Py.eq_str diet "western" then
      queries ++ ["western diet processed food cancer risk"]
    else if Py.in_strs diet ["mediterranean"; "vegetarian"; "vegan"] then
      queries ++ ["plant based diet cancer prevention"]
    else queries in
  family_history <- Py.get user_data "familyHistory" (PList []) ;;
  conditions <- Py.iter family_history ;;
  let queries :=
    queries ++ map (hereditary rt) (filter Py.truthy conditions) in
  age_v <- Py.get user_data "age" (PInt 40) ;;
  age <- Py.int_ rt age_v ;;
  sex <- Py.get user_data "sex" (PStr "other") ;;
  let queries := append_if ((50 <=? age)%Z && Py.eq_str sex "male")
                   "prostate cancer age risk screening men" queries in
  let queries := append_if ((40 <=? age)%Z && Py.eq_str sex "female")
                   "breast cancer age risk screening women mammography"
                   queries in
  let queries := append_if (45 <=? age)%Z
                   "colorectal cancer age risk colonoscopy screening"
                   queries in
  let queries := append_if (match queries with [] => true | _ => false end)
                   fallback_query queries in
  Ok (firstn 3 queries).

(** ** The outside world *)

(** One external call.  [ReqSearch] is the [urlopen] of the esearch URL
    (fixed fields: db=pubmed, retmode=json, sort=relevance and the
    open-access filter), [ReqFetch] the [urlopen] of the efetch URL
    (db=pubmed, retmode=xml, rettype=abstract), and [ReqInvoke] the
    [bedrock.invoke_model] call (fixed fields: the model id, the system
    prompt, max_tokens=2048). *)
Inductive request : Type :=
| ReqSearch (term : string) (retmax : Z)
| ReqFetch (ids : string)
| ReqInvoke (user_message : string).

Definition trace : Type := list request.

(** The answer to a request, given the requests made so far: the text of
    the response body, or the exception raised while opening, reading or
    decoding it. *)
Definition world : Type := trace -> request -> result string.

(** Computations that talk to the world: the trace of requests is
    threaded through and survives an exception. *)
Definition io (A : Type) : Type := trace -> result A * trace.

Definition ret {A : Type} (a : A) : io A := fun tr => (Ok a, tr).

Definition throw {A : Type} (e : exn) : io A := fun tr => (Raise e, tr).

Definition bind {A B : Type} (m : io A) (k : A -> io B) : io B :=
  fun tr =>
    match m tr with
    | (Ok a, tr') => k a tr'
    | (Raise e, tr') => (Raise e, tr')
    end.

(** [try: m  except Exception as e: h e] *)
Definition try_except {A : Type} (m : io A) (h : exn -> io A) : io A :=
  fun tr =>
    match m tr with
    | (Ok a, tr') => (Ok a, tr')
    | (Raise e, tr') => h e tr'
    end.

Definition lift {A : Type} (r : result A) : io A := fun tr => (r, tr).

Definition call (w : world) (q : request) : io string :=
  fun tr => (w tr q, tr ++ [q]).

Declare Scope io_scope.
Delimit Scope io_scope with io.
Notation "x <~ m ;; k" := (bind m (fun x => k))
  (at level 61, m at next level, right associativity) : io_scope.

(** [json.loads(text)] *)
Definition loads (rt : runtime) (text : string) : result pyval :=
  json_loads rt text.

(** [urlencode] of the request parameters: of these only [text] varies,
    and the call raises when it cannot be encoded. *)
Definition urlencode (rt : runtime) (text : string) : result string :=
  if encodable rt text then Ok text else Raise UnicodeEncodeError.

(** [print(text)] *)
Definition print (rt : runtime) (text : string) : io unit :=
  if encodable rt text then ret tt else throw UnicodeEncodeError.

(** [json.loads(v)] on a value: only text can be read. *)
Definition loads_val (rt : runtime) (v : pyval) : result pyval :=
  match v with
  | PStr s => loads rt s
  | _ => Raise TypeError
  end.

(** ** [search_pubmed] *)

Local Open Scope io_scope.

(** The [try] statement of [search_pubmed], for a URL that is built. *)
Definition search_request (rt : runtime) (w : world)
  (term : string) (max_results : Z) : io pyval :=
  try_except
    (body <~ call w (ReqSearch term max_results) ;;
     data <~ lift (loads rt body) ;;
     esearchresult <~ lift (Py.get data "esearchresult" (PDict [])) ;;
     lift (Py.get esearchresult "idlist" (PList [])))
    (fun _ => ret (PList [])).

(** The URL is built before the [try]. *)
Definition search_pubmed (rt : runtime) (w : world)
  (query : string) (max_results : Z) : io pyval :=
  term <~ lift (urlencode rt query) ;;
  search_request rt w term max_results.

(** ** [fetch_abstracts] *)

(** One parsed record: the dict the source builds, as a record. *)
Record abstract : Type := {
  title : string;
  abstract_text : string;   (* key "abstract" *)
  url : string;
  doi : string;
  year : option string      (* [None] is Python's None *)
}.

Definition article_re : Re.regex :=
  [[Re.Lit "<PubmedArticle>"; Re.AnyLazy true true; Re.Lit "</PubmedArticle>"]].

Definition title_re : Re.regex :=
  [[Re.Lit "<ArticleTitle>"; Re.AnyLazy true true; Re.Lit "</ArticleTitle>"]].

Definition abstract_re : Re.regex :=
  [[Re.Lit "<AbstractText"; Re.AnyLazy true false; Re.Lit ">";
    Re.AnyLazy true true; Re.Lit "</AbstractText>"]].

Definition pmid_re : Re.regex :=
  [[Re.Lit ("<PMID Version=" ++ Text.dquote ++ "1" ++ Text.dquote ++ ">");
    Re.AnyLazy false true; Re.Lit "</PMID>"]].

Definition year_re : Re.regex :=
  [[Re.Lit "<PubDate>"; Re.AnyLazy true false; Re.Lit "<Year>";
    Re.AnyLazy true true; Re.Lit "</Year>"]].

(** [<[^>]+>] *)
Definition tag_re : Re.regex :=
  [[Re.Lit "<"; Re.NotPlus ">"; Re.Lit ">"]].

Definition record_url (pmid : string) : string :=
  "https://pubmed.ncbi.nlm.nih.gov/" ++ pmid ++ "/".

(** The identifier of an article block: the PMID tag, else "unknown". *)
Definition article_pmid (article : string) : string :=
  match Re.search pmid_re article with
  | Some m => Text.strip (Re.group1 m)
  | None => "unknown"
  end.

(** The body of the loop over the article blocks: the record appended for
    [article], if any. *)
Definition parse_article (article : string) : option abstract :=
  let title_match := Re.search title_re article in
  let abstract_match := Re.search abstract_re article in
  let year_match := Re.search year_re article in
  match title_match, abstract_match with
  | Some tm, Some am =>
      let pmid := article_pmid article in
      Some {| title := Text.strip (Re.remove tag_re (Re.group1 tm));
              abstract_text := Text.strip (Re.remove tag_re (Re.group1 am));
              url := record_url pmid;
              doi := record_url pmid;
              year := option_map (fun m => Text.strip (Re.group1 m))
                        year_match |}
  | _, _ => None
  end.

Fixpoint keep_some {A : Type} (l : list (option A)) : list A :=
  match l with
  | [] => []
  | Some a :: l' => a :: keep_some l'
  | None :: l' => keep_some l'
  end.

(** The parse step: the records of the blocks of [xml_content]. *)
Definition parse_abstracts (xml_content : string) : list abstract :=
  keep_some (map parse_article (Re.findall article_re xml_content)).

Definition fetch_abstracts (rt : runtime) (w : world)
  (pmids : list pyval) : io (list abstract) :=
  match pmids with
  | [] => ret []
  | _ =>
      ids <~ lift (Py.join "," (PList pmids)) ;;
      ids <~ lift (urlencode rt ids) ;;
      try_except
        (xml_content <~ call w (ReqFetch ids) ;;
         ret (parse_abstracts xml_content))
        (fun _ => ret [])
  end.

(** ** [invoke_bedrock] *)

Definition nl : string := String Text.newline EmptyString.

(** [str(n)] for a natural number. *)
Definition decimal (n : nat) : string :=
  NilZero.string_of_uint (Nat.to_uint n).

(** The numbered source block of the [i]-th record (counted from 0). *)
Definition source_block (i : nat) (a : abstract) : string :=
  "SOURCE [" ++ decimal (i + 1) ++ "]: " ++ title a ++ nl ++
  "URL: " ++ url a ++ nl ++ nl ++
  "ABSTRACT: " ++ abstract_text a.

Fixpoint source_blocks (i : nat) (abstracts : list abstract) : list string :=
  match abstracts with
  | [] => []
  | a :: rest => source_block i a :: source_blocks (S i) rest
  end.

Definition abstract_context (abstracts : list abstract) : string :=
  Text.join (nl ++ nl) (source_blocks 0 abstracts).

(** [x or y] on text. *)
Definition or_else (x y : string) : string :=
  match x with
  | EmptyString => y
  | _ => x
  end.

Definition user_message (rt : runtime) (user_data : pyval)
  (abstracts : list abstract) : result string :=
  (let context := abstract_context abstracts in
   age <- Py.get user_data "age" PNone ;;
   sex <- Py.get user_data "sex" PNone ;;
   bmi <- Py.get user_data "bmi" PNone ;;
   smoking <- Py.get user_data "smokingStatus" PNone ;;
   alcohol <- Py.get user_data "alcoholConsumption" PNone ;;
   diet <- Py.get user_data "dietaryPattern" PNone ;;
   family_history <- Py.get user_data "familyHistory" (PList []) ;;
   family <- Py.join ", " family_history ;;
   Ok ("PATIENT PROFILE:" ++ nl ++
       "- Age: " ++ Py.format rt age ++ nl ++
       "- Sex: " ++ Py.format rt sex ++ nl ++
       "- BMI: " ++ Py.format rt bmi ++ nl ++
       "- Smoking Status: " ++ Py.format rt smoking ++ nl ++
       "- Alcohol Consumption: " ++ Py.format rt alcohol ++ nl ++
       "- Dietary Pattern: " ++ Py.format rt diet ++ nl ++
       "- Family History of Conditions: " ++
         or_else family "None reported" ++ nl ++ nl ++
       "RESEARCH ABSTRACTS:" ++ nl ++
       context ++ nl ++ nl ++
       "Based on the patient profile and the provided research abstracts, generate a comprehensive " ++ nl ++
       "cancer risk correlation analysis. Cite only the sources provided above.")%string)%py.

(** [```json|```] *)
Definition fence_re : Re.regex := [[Re.Lit "```json"]; [Re.Lit "```"]].

(** The text handed to the JSON reader: fences removed, then stripped. *)
Definition strip_fences (raw_text : string) : string :=
  Text.strip (Re.remove fence_re raw_text).

(** [re.sub] wants text. *)
Definition as_text (v : pyval) : result string :=
  match v with
  | PStr s => Ok s
  | _ => Raise TypeError
  end.

(** [result["content"][0]["text"]] of the response body. *)
Definition response_text (rt : runtime) (body : string) : result pyval :=
  (result <- loads rt body ;;
   content <- Py.getitem_str result "content" ;;
   first <- Py.getitem_0 content ;;
   Py.getitem_str first "text")%py.

(** The lines of the [try] block up to the first binding of [raw_text]. *)
Definition bedrock_text (rt : runtime) (w : world) (message : string) :
  io pyval :=
  body <~ call w (ReqInvoke message) ;;
  lift (response_text rt body).

(** What the JSONDecodeError handler prints. *)
Definition diagnostic (rt : runtime) (raw_text : string) : string :=
  "[JSON Parse Error] " ++ exn_str rt JSONDecodeError ++ " | Raw: " ++
  Text.take 500 raw_text.

(** Both handlers re-raise; an exception that is neither a ClientError nor
    a JSONDecodeError is not caught.  The JSONDecodeError handler first
    prints [raw_text[:500]]: when the error comes from before [raw_text]
    is bound, reading it raises UnboundLocalError instead, and when the
    text cannot be encoded the print raises UnicodeEncodeError. *)
Definition invoke_bedrock (rt : runtime) (w : world) (user_data : pyval)
  (abstracts : list abstract) : io pyval :=
  message <~ lift (user_message rt user_data abstracts) ;;
  raw <~ try_except (bedrock_text rt w message)
           (fun e => if is_JSONDecodeError e then throw UnboundLocalError
                     else throw e) ;;
  raw_text <~ lift (as_text raw) ;;
  let raw_text := strip_fences raw_text in
  try_except (lift (loads rt raw_text))
    (fun e => if is_JSONDecodeError e then
                _ <~ print rt (diagnostic rt raw_text) ;; throw e
              else throw e).

(** ** [handler] *)

Record lambda_context : Type := { aws_request_id : string }.

(** The [body] of a response: literal text, or [json.dumps] of a value. *)
Inductive body_t : Type :=
| BodyText (s : string)
| BodyJson (v : pyval).

Record response : Type := {
  statusCode : Z;
  headers : list (string * string);
  body : body_t
}.

Definition cors_headers : list (string * string) :=
  [("Access-Control-Allow-Origin", "*");
   ("Access-Control-Allow-Headers", "Content-Type,Authorization");
   ("Access-Control-Allow-Methods", "POST,OPTIONS");
   ("Content-Type", "application/json")].

Definition respond (code : Z) (b : body_t) : response :=
  {| statusCode := code; headers := cors_headers; body := b |}.

Definition error_body (message : string) : body_t :=
  BodyJson (PDict [("error", PStr message)]).

(** Step 2, the loop: [all_pmids.extend(search_pubmed(q, max_results=2))]
    for each query. *)
Fixpoint search_all (rt : runtime) (w : world) (queries : list string)
  (all_pmids : list pyval) : io (list pyval) :=
  match queries with
  | [] => ret all_pmids
  | q :: rest =>
      pmids <~ search_pubmed rt w q 2 ;;
      items <~ lift (Py.iter pmids) ;;
      search_all rt w rest (all_pmids ++ items)
  end.

(** Dictionary keys: values that are equal in Python have the same key
    (True, 1 and 1.0 are one key). *)
Inductive key : Type :=
| KNone
| KNum (z : Z)
| KFloat (f : spec_float)
| KStr (s : string).

Definition key_eqb (a b : key) : bool :=
  match a, b with
  | KNone, KNone => true
  | KNum x, KNum y => Z.eqb x y
  | KFloat x, KFloat y =>
      SFeqb x y
      || match x, y with
         | S754_nan, S754_nan => true (* the one NaN object of [json] *)
         | _, _ => false
         end
  | KStr x, KStr y => String.eqb x y
  | _, _ => false
  end.

(** The integer a double is equal to, if any. *)
Definition float_integer (f : spec_float) : option Z :=
  match f with
  | S754_zero _ => Some 0%Z
  | S754_finite s m e =>
      let sign (a : Z) := if s then Z.opp a else a in
      match e with
      | Zneg k =>
          if Z.eqb (Z.land (Zpos m) (Z.ones (Zpos k))) 0
          then Some (sign (Z.shiftr (Zpos m) (Zpos k)))
          else None
      | _ => Some (sign (Z.shiftl (Zpos m) e))
      end
  | _ => None
  end.

(** Lists and dicts are unhashable. *)
Definition key_of (v : pyval) : result key :=
  match v with
  | PNone => Ok KNone
  | PBool b => Ok (KNum (if b then 1 else 0))
  | PInt z => Ok (KNum z)
  | PFloat f => Ok (match float_integer f with
                    | Some z => KNum z
                    | None => KFloat f
                    end)
  | PStr s => Ok (KStr s)
  | PList _ | PDict _ => Raise TypeError
  end.

(** A dict keyed by values: the keys in insertion order, each with the
    object first inserted under it. *)
Definition keydict : Type := list (key * pyval).

Definition has_key (d : keydict) (k : key) : bool :=
  existsb (fun kv => key_eqb (fst kv) k) d.

(** [d[v] = None] *)
Definition add_key (d : keydict) (v : pyval) : result keydict :=
  (k <- key_of v ;;
   Ok (if has_key d k then d else d ++ [(k, v)]))%py.

Fixpoint fromkeys_into (d : keydict) (items : list pyval) : result keydict :=
  match items with
  | [] => Ok d
  | v :: rest => (d' <- add_key d v ;; fromkeys_into d' rest)%py
  end.

(** [list(dict.fromkeys(items))] *)
Definition fromkeys (items : list pyval) : result (list pyval) :=
  (d <- fromkeys_into [] items ;; Ok (map snd d))%py.

(** Step 2, the last line: [list(dict.fromkeys(all_pmids))[:5]]. *)
Definition dedupe_cap (all_pmids : list pyval) : result (list pyval) :=
  (keys <- fromkeys all_pmids ;; Ok (firstn 5 keys))%py.

Definition abstract_py (a : abstract) : pyval :=
  PDict [("title", PStr (title a));
         ("abstract", PStr (abstract_text a));
         ("url", PStr (url a));
         ("doi", PStr (doi a));
         ("year", match year a with Some y => PStr y | None => PNone end)].

(** Step 4 and the two assignments after it. *)
Definition synthesize (rt : runtime) (w : world) (user_data : pyval)
  (abstracts : list abstract) (context : lambda_context) : io pyval :=
  llm_result <~ invoke_bedrock rt w user_data abstracts ;;
  llm_result <~ lift (Py.setitem_str llm_result "searchedAbstracts"
                        (PList (map abstract_py abstracts))) ;;
  lift (Py.setitem_str llm_result "timestamp"
          (PStr (aws_request_id context))).

(** Step 2: the identifiers of all the queries, deduplicated and capped. *)
Definition collect_pmids (rt : runtime) (w : world) (queries : list string) :
  io (list pyval) :=
  all_pmids <~ search_all rt w queries [] ;;
  lift (dedupe_cap all_pmids).

(** Steps 2 and 3: from the queries to the parsed records. *)
Definition retrieve (rt : runtime) (w : world) (queries : list string) :
  io (list abstract) :=
  all_pmids <~ collect_pmids rt w queries ;;
  fetch_abstracts rt w all_pmids.

Definition no_abstracts_message : string :=
  "No abstracts could be retrieved from PubMed".

(** [event.get("httpMethod")] stands before the [try]. *)
Definition handler (rt : runtime) (w : world) (event : pyval)
  (context : lambda_context) : io response :=
  method <~ lift (Py.get event "httpMethod" PNone) ;;
  if Py.eq_str method "OPTIONS" then
    ret (respond 200 (BodyText EmptyString))
  else
    try_except
      (raw_body <~ lift (Py.get event "body" (PStr "{}")) ;;
       body <~ lift (loads_val rt raw_body) ;;
       user_data <~ lift (Py.get body "userData" (PDict [])) ;;
       if negb (Py.truthy user_data) then
         ret (respond 400 (error_body "userData is required"))
       else
         queries <~ lift (build_search_queries rt user_data) ;;
         abstracts <~ retrieve rt w queries ;;
         match abstracts with
         | [] => ret (respond 502 (error_body no_abstracts_message))
         | _ =>
             llm_result <~ synthesize rt w user_data abstracts context ;;
             ret (respond 200 (BodyJson llm_result))
         end)
      (fun e => ret (respond 500 (error_body (exn_str rt e)))).

(** ** Notions used to state the properties *)

(** [sub in s] *)
Definition contains (sub s : string) : bool :=
  match String.index 0 sub s with
  | Some _ => true
  | None => false
  end.

Definition nonempty (s : string) : Prop := s <> EmptyString.

(** A field of a profile satisfies [P] when it is present; an absent field
    is left to the default of the code. *)
Definition field (d : pydict) (k : string) (P : pyval -> Prop) : Prop :=
  match Py.lookup d k with
  | Some v => P v
  | None => True
  end.

Definition one_of (tags : list string) (v : pyval) : Prop :=
  exists s, v = PStr s /\ In s tags.

(** A positive real: a positive [int] that fits a double, or a positive
    finite [float]. *)
Definition positive_real (v : pyval) : Prop :=
  match v with
  | PInt z => (0 < z)%Z /\ exists f, Py.float_of_int z = Ok f
  | PFloat (S754_finite false _ _) => True
  | _ => False
  end.

(** The RiskProfile of the data model, as a [userData] dict. *)
Record valid_profile (d : pydict) : Prop := {
  valid_age : field d "age" (fun v => exists a, v = PInt a /\ (0 <= a)%Z);
  valid_sex : field d "sex" (one_of ["male"; "female"; "other"]);
  valid_bmi : field d "bmi" positive_real;
  valid_smoking :
    field d "smokingStatus" (one_of ["current"; "former"; "never"; "unknown"]);
  valid_alcohol :
    field d "alcoholConsumption" (one_of ["none"; "moderate"; "heavy"]);
  valid_diet : field d "dietaryPattern" (fun v => exists s, v = PStr s);
  valid_family :
    field d "familyHistory" (fun v => exists l, v = PList (map PStr l))
}.

(** Two dicts hold the same fields. *)
Definition same_fields (d d' : pydict) : Prop :=
  forall k, Py.lookup d' k = Py.lookup d k.

(** Duplicates removed, the first occurrence kept: the head stays and is
    removed from what follows. *)
Fixpoint keep_first (l : list string) : list string :=
  match l with
  | [] => []
  | x :: l' => x :: List.remove string_dec x (keep_first l')
  end.

(** Both the title pattern and the abstract pattern match the block. *)
Definition has_title_and_abstract (article : string) : bool :=
  match Re.search title_re article, Re.search abstract_re article with
  | Some _, Some _ => true
  | _, _ => false
  end.

(** The dict entry of an identifier that is text. *)
Definition text_key (x : string) : key * pyval := (KStr x, PStr x).

(** The fetch is issued for [pmids] and the world answers with [xml]. *)
Definition fetched (rt : runtime) (w : world) (pmids : list pyval)
  (tr : trace) (xml : string) : Prop :=
  pmids <> [] /\
  exists ids, Py.join "," (PList pmids) = Ok ids /\
              encodable rt ids = true /\
              w tr (ReqFetch ids) = Ok xml.

Definition is_invoke (req : request) : bool :=
  match req with
  | ReqInvoke _ => true
  | _ => false
  end.

(** The shape of the report, from OUTPUT FORMAT in the system prompt. *)
Definition text_field (d : pydict) (k : string) : bool :=
  match Py.lookup d k with
  | Some (PStr _) => true
  | _ => false
  end.

Definition citation_shape (v : pyval) : bool :=
  match v with
  | PDict d => text_field d "title" && text_field d "url"
  | _ => false
  end.

Definition insight_shape (v : pyval) : bool :=
  match v with
  | PDict d =>
      text_field d "cancerType"
      && match Py.lookup d "riskLevel" with
         | Some level => Py.in_strs level ["low"; "moderate"; "high"]
         | None => false
         end
      && text_field d "explanation"
      && match Py.lookup d "citations" with
         | Some (PList cs) => forallb citation_shape cs
         | _ => false
         end
      && text_field d "recommendation"
  | _ => false
  end.

Definition report_shape (v : pyval) : bool :=
  match v with
  | PDict d =>
      match Py.lookup d "insights" with
      | Some (PList insights) => forallb insight_shape insights
      | _ => false
      end
      && text_field d "disclaimer"
  | _ => false
  end.

(** The insights of a report, and whether each carries a citation. *)
Definition insights_of (v : pyval) : list pyval :=
  match v with
  | PDict d =>
      match Py.lookup d "insights" with
      | Some (PList insights) => insights
      | _ => []
      end
  | _ => []
  end.

Definition cited (insight : pyval) : bool :=
  match insight with
  | PDict d =>
      match Py.lookup d "citations" with
      | Some (PList (_ :: _)) => true
      | _ => false
      end
  | _ => false
  end.

Definition all_cited (report : pyval) : bool :=
  forallb cited (insights_of report).

(** The evidence set attached to a report. *)
Definition evidence_of (report : pyval) : option pyval :=
  match report with
  | PDict d => Py.lookup d "searchedAbstracts"
  | _ => None
  end.

(** Requests that are not invocations of the inference service. *)
Definition quiet (added : trace) : Prop :=
  Forall (fun req => is_invoke req = false) added.

(** Values that [float] and [int] reject with TypeError. *)
Definition not_numeric (v : pyval) : Prop :=
  match v with
  | PNone | PList _ | PDict _ => True
  | _ => False
  end.

(** A list that starts with [q]. *)
Definition starts_with (q : string) (l : list string) : Prop :=
  exists rest, l = q :: rest.

(** The response of a search holds an identifier list [v]: the body is a
    JSON object whose esearchresult is an object with an idlist. *)
Definition idlist_found (rt : runtime) (reply : result string) (v : pyval) :
  Prop :=
  exists body d e,
    reply = Ok body /\
    json_loads rt body = Ok (PDict d) /\
    Py.lookup d "esearchresult" = Some (PDict e) /\
    Py.lookup e "idlist" = Some v.

(** Lists and dicts cannot be dictionary keys. *)
Definition unhashable (v : pyval) : Prop :=
  match v with
  | PList _ | PDict _ => True
  | _ => False
  end.

Definition first_char (s : string) : option ascii :=
  match s with
  | String c _ => Some c
  | EmptyString => None
  end.

Fixpoint last_char (s : string) : option ascii :=
  match s with
  | EmptyString => None
  | String c EmptyString => Some c
  | String _ s' => last_char s'
  end.

(** Text with no whitespace at either end. *)
Definition trimmed (s : string) : Prop :=
  (forall c, first_char s = Some c -> Text.isspace c = false) /\
  (forall c, last_char s = Some c -> Text.isspace c = false).

(** The text is clear of the character [c]. *)
Fixpoint lacks (c : ascii) (s : string) : bool :=
  match s with
  | EmptyString => true
  | String a s' => negb (Ascii.eqb a c) && lacks c s'
  end.

(** [b] occurs in [m]. *)
Definition infix (b m : string) : Prop :=
  exists pre post, m = (pre ++ b ++ post)%string.

(** What follows the [<] of a tag: the greedy class and the closing [>]. *)
Definition tag_rest : string -> option Re.hit :=
  Re.match_here [Re.NotPlus ">"; Re.Lit ">"].

(** The request is not OPTIONS and its body is JSON whose userData is
    missing or falsy. *)
Definition lacks_user_data (rt : runtime) (event : pydict) : Prop :=
  Py.eq_str (Py.dict_get event "httpMethod" PNone) "OPTIONS" = false /\
  exists body user_data,
    loads_val rt (Py.dict_get event "body" (PStr "{}")) = Ok body /\
    Py.get body "userData" (PDict []) = Ok user_data /\
    Py.truthy user_data = false.

(** What [invoke_bedrock] makes of the stripped text [raw_text]. *)
Definition json_outcome (rt : runtime) (raw_text : string) : result pyval :=
  match json_loads rt raw_text with
  | Ok report => Ok report
  | Raise e =>
      if is_JSONDecodeError e then
        if encodable rt (diagnostic rt raw_text) then Raise e
        else Raise UnicodeEncodeError
      else Raise e
  end.




(** ** Examples: a runtime and some worlds *)

Module Demo.

(** [str(v)] for None, booleans and integers; the other cases are not
    reached by the examples. *)
Definition str_small (v : pyval) : string :=
  match v with
  | PNone => "None"
  | PBool true => "True"
  | PBool false => "False"
  | PInt z => NilZero.string_of_int (Z.to_int z)
  | _ => EmptyString
  end.

Fixpoint table_loads (table : list (string * pyval)) (text : string) :
  result pyval :=
  match table with
  | [] => Raise JSONDecodeError
  | (t, v) :: rest => if String.eqb t text then Ok v else table_loads rest text
  end.

(** A runtime whose JSON reader knows the texts of [table], each listed
    with the value [json.loads] gives for it. *)
Definition runtime_of (table : list (string * pyval)) : runtime :=
  {| json_loads := table_loads table;
     encodable := fun _ => true;
     float_of_str := fun _ => None;
     int_of_str := fun _ => None;
     str_of := str_small;
     exn_str := fun _ => "error" |}.

(** The profile of the worked example of the query planner. *)
Definition smoker : pydict :=
  [("smokingStatus", PStr "current"); ("age", PInt 30); ("sex", PStr "male");
   ("bmi", PInt 22); ("alcoholConsumption", PStr "none");
   ("dietaryPattern", PStr EmptyString); ("familyHistory", PList [])].

(** JSON text is written with [q] for a quoted string. *)
Definition q (s : string) : string := Text.dquote ++ s ++ Text.dquote.

(** The body of a search response with the given identifiers. *)
Definition idlist_body (ids : string) : string :=
  "{" ++ q "esearchresult" ++ ":{" ++ q "idlist" ++ ":[" ++ ids ++ "]}}".

Definition idlist_value (ids : list pyval) : pyval :=
  PDict [("esearchresult", PDict [("idlist", PList ids)])].

Definition smoking_query : string :=
  "smoking lung cancer risk factors epidemiology".

Definition overweight_query : string :=
  "overweight cancer risk metabolic syndrome".

(** Two searches that share an identifier: [A, B] and [B, C]. *)
Definition body_AB : string := idlist_body (q "A" ++ "," ++ q "B").
Definition body_BC : string := idlist_body (q "B" ++ "," ++ q "C").

Definition overlap_runtime : runtime :=
  runtime_of [(body_AB, idlist_value [PStr "A"; PStr "B"]);
              (body_BC, idlist_value [PStr "B"; PStr "C"])].

Definition unreachable : exn := OtherError "URLError".

Definition overlap_world : world :=
  fun _ req =>
    match req with
    | ReqSearch term _ =>
        if String.eqb term smoking_query then Ok body_AB
        else if String.eqb term overweight_query then Ok body_BC
        else Raise unreachable
    | _ => Raise unreachable
    end.

Definition overlap_answer (term : string) : list string :=
  if String.eqb term smoking_query then ["A"; "B"] else ["B"; "C"].

Definition pmid_tag (pmid : string) : string :=
  "<PMID Version=" ++ q "1" ++ ">" ++ pmid ++ "</PMID>".

(** A block whose title element is there but empty. *)
Definition xml_empty_title : string :=
  "<PubmedArticleSet><PubmedArticle>" ++ pmid_tag "31415" ++
  "<ArticleTitle></ArticleTitle>" ++
  "<AbstractText>Smoking and lung cancer.</AbstractText>" ++
  "</PubmedArticle></PubmedArticleSet>".

(** A block with a title and an abstract and no PMID element. *)
Definition xml_no_pmid : string :=
  "<PubmedArticleSet><PubmedArticle>" ++
  "<ArticleTitle>Diet and <i>cancer</i></ArticleTitle>" ++
  "<AbstractText Label=" ++ q "RESULTS" ++ "> A cohort study. </AbstractText>" ++
  "</PubmedArticle></PubmedArticleSet>".

Definition block_no_pmid : string :=
  "<ArticleTitle>Diet and <i>cancer</i></ArticleTitle>" ++
  "<AbstractText Label=" ++ q "RESULTS" ++ "> A cohort study. </AbstractText>".

(** Three blocks: a complete one, one without an abstract, one without a
    title. *)
Definition xml_three : string :=
  "<PubmedArticleSet><PubmedArticle>" ++ pmid_tag "101" ++
  "<ArticleTitle>Obesity and risk</ArticleTitle>" ++
  "<AbstractText>Background.</AbstractText>" ++
  "<PubDate><Year>2021</Year></PubDate></PubmedArticle>" ++
  "<PubmedArticle>" ++ pmid_tag "102" ++
  "<ArticleTitle>No abstract here</ArticleTitle></PubmedArticle>" ++
  "<PubmedArticle>" ++ pmid_tag "103" ++
  "<AbstractText>No title here.</AbstractText></PubmedArticle>" ++
  "</PubmedArticleSet>".

(** A world whose fetch answers with [xml]; nothing else is reachable. *)
Definition fetch_world (xml : string) : world :=
  fun _ req =>
    match req with
    | ReqFetch _ => Ok xml
    | _ => Raise unreachable
    end.

(** A world in which every call fails. *)
Definition dead_world : world := fun _ _ => Raise unreachable.

(** A search response whose identifier is a number, not text. *)
Definition body_int : string := idlist_body "7".

Definition int_runtime : runtime :=
  runtime_of [(body_int, idlist_value [PInt 7])].

Definition int_world : world :=
  fun _ req =>
    match req with
    | ReqSearch _ _ => Ok body_int
    | _ => Raise unreachable
    end.

(** The text of a JSON string literal. *)
Fixpoint escape (s : string) : string :=
  match s with
  | EmptyString => EmptyString
  | String c s' =>
      if Ascii.eqb c (ascii_of_nat 34) then
        String (ascii_of_nat 92) (String c (escape s'))
      else if Ascii.eqb c Text.newline then
        String (ascii_of_nat 92) (String "n" (escape s'))
      else String c (escape s')
  end.

(** The body of an inference response that carries [text]. *)
Definition envelope_body (text : string) : string :=
  "{" ++ q "content" ++ ":[{" ++ q "type" ++ ":" ++ q "text" ++ "," ++
  q "text" ++ ":" ++ q (escape text) ++ "}]}".

Definition envelope_value (text : string) : pyval :=
  PDict [("content", PList [PDict [("type", PStr "text");
                                   ("text", PStr text)]])].

Definition fenced (json : string) : string :=
  "```json" ++ nl ++ json ++ nl ++ "```".

(** A report of the right shape whose only insight cites nothing. *)
Definition uncited_json : string :=
  "{" ++ q "insights" ++ ":[{" ++
  q "cancerType" ++ ":" ++ q "lung" ++ "," ++
  q "riskLevel" ++ ":" ++ q "high" ++ "," ++
  q "explanation" ++ ":" ++ q "research suggests a potential correlation" ++ "," ++
  q "citations" ++ ":[]," ++
  q "recommendation" ++ ":" ++ q "consult a physician" ++ "}]," ++
  q "disclaimer" ++ ":" ++ q "not a diagnosis" ++ "}".

Definition uncited_report : pyval :=
  PDict [("insights",
          PList [PDict [("cancerType", PStr "lung");
                        ("riskLevel", PStr "high");
                        ("explanation",
                         PStr "research suggests a potential correlation");
                        ("citations", PList []);
                        ("recommendation", PStr "consult a physician")]]);
         ("disclaimer", PStr "not a diagnosis")].

(** The same report with one citation. *)
Definition cited_json : string :=
  "{" ++ q "insights" ++ ":[{" ++
  q "cancerType" ++ ":" ++ q "lung" ++ "," ++
  q "riskLevel" ++ ":" ++ q "high" ++ "," ++
  q "explanation" ++ ":" ++ q "research suggests a potential correlation" ++ "," ++
  q "citations" ++ ":[{" ++ q "title" ++ ":" ++ q "Obesity and risk" ++ "," ++
    q "url" ++ ":" ++ q "https://pubmed.ncbi.nlm.nih.gov/101/" ++ "}]," ++
  q "recommendation" ++ ":" ++ q "consult a physician" ++ "}]," ++
  q "disclaimer" ++ ":" ++ q "not a diagnosis" ++ "}".

Definition cited_report : pyval :=
  PDict [("insights",
          PList [PDict [("cancerType", PStr "lung");
                        ("riskLevel", PStr "high");
                        ("explanation",
                         PStr "research suggests a potential correlation");
                        ("citations",
                         PList [PDict [("title", PStr "Obesity and risk");
                                       ("url",
                                        PStr "https://pubmed.ncbi.nlm.nih.gov/101/")]]);
                        ("recommendation", PStr "consult a physician")]]);
         ("disclaimer", PStr "not a diagnosis")].

(** A response that is prose, not JSON. *)
Definition prose : string := "I cannot help with that.".

(** The JSON reader of the inference examples. *)
Definition bedrock_runtime : runtime :=
  runtime_of [(envelope_body (fenced uncited_json),
               envelope_value (fenced uncited_json));
              (envelope_body (fenced cited_json),
               envelope_value (fenced cited_json));
              (envelope_body prose, envelope_value prose);
              (uncited_json, uncited_report);
              (cited_json, cited_report)].

(** A world whose inference call answers with [text]. *)
Definition bedrock_world (text : string) : world :=
  fun _ req =>
    match req with
    | ReqInvoke _ => Ok (envelope_body text)
    | _ => Raise unreachable
    end.

(** One record of evidence. *)
Definition evidence : list abstract :=
  [{| title := "Obesity and risk";
      abstract_text := "Background.";
      url := "https://pubmed.ncbi.nlm.nih.gov/101/";
      doi := "https://pubmed.ncbi.nlm.nih.gov/101/";
      year := Some "2021" |}].

Definition lambda : lambda_context := {| aws_request_id := "req-1" |}.

(** A POST event that carries the smoker profile. *)
Definition smoker_json : string :=
  "{" ++ q "userData" ++ ":{" ++
  q "smokingStatus" ++ ":" ++ q "current" ++ "," ++
  q "age" ++ ":30," ++
  q "sex" ++ ":" ++ q "male" ++ "," ++
  q "bmi" ++ ":22," ++
  q "alcoholConsumption" ++ ":" ++ q "none" ++ "," ++
  q "dietaryPattern" ++ ":" ++ q EmptyString ++ "," ++
  q "familyHistory" ++ ":[]}}".

Definition smoker_event : pydict :=
  [("httpMethod", PStr "POST"); ("body", PStr smoker_json)].

Definition event_runtime : runtime :=
  runtime_of [(smoker_json, PDict [("userData", PDict smoker)])].

(** A world in which the whole pipeline succeeds: every search finds
    [A, B], the fetch answers with [xml_three] and the inference call with
    the cited report. *)
Definition full_world : world :=
  fun _ req =>
    match req with
    | ReqSearch _ _ => Ok body_AB
    | ReqFetch _ => Ok xml_three
    | ReqInvoke _ => Ok (envelope_body (fenced cited_json))
    end.

Definition full_runtime : runtime :=
  runtime_of [(smoker_json, PDict [("userData", PDict smoker)]);
              (body_AB, idlist_value [PStr "A"; PStr "B"]);
              (envelope_body (fenced cited_json),
               envelope_value (fenced cited_json));
              (cited_json, cited_report)].

(** A profile whose bmi is null. *)
Definition null_bmi_json : string :=
  "{" ++ q "userData" ++ ":{" ++ q "age" ++ ":30," ++ q "bmi" ++ ":null}}".

Definition null_bmi_event : pydict :=
  [("httpMethod", PStr "POST"); ("body", PStr null_bmi_json)].

Definition null_bmi_runtime : runtime :=
  runtime_of [(null_bmi_json,
               PDict [("userData", PDict [("age", PInt 30); ("bmi", PNone)])])].

(** A POST event with no body: the handler reads it as an empty object. *)
Definition bare_event : pydict := [("httpMethod", PStr "POST")].

Definition bare_runtime : runtime := runtime_of [("{}", PDict [])].



(** [p] occurs in [s]. *)
Fixpoint holds (p s : string) : bool :=
  match Text.drop_prefix p s with
  | Some _ => true
  | None =>
      match s with
      | EmptyString => false
      | String _ s' => holds p s'
      end
  end.

(** A lone surrogate is written here as JSON writes it; [strict] makes of
    a runtime one for which a text that holds this mark cannot be
    encoded. *)
Definition surrogate : string := "\ud800".

Definition strict (rt : runtime) : runtime :=
  {| json_loads := json_loads rt;
     encodable := fun text => negb (holds surrogate text);
     float_of_str := float_of_str rt;
     int_of_str := int_of_str rt;
     str_of := str_of rt;
     exn_str := exn_str rt |}.

(** A search response whose identifier holds a lone surrogate. *)
Definition body_surrogate : string := idlist_body (q surrogate).

Definition surrogate_runtime : runtime :=
  strict (runtime_of
            [(body_surrogate,
              PDict [("esearchresult",
                      PDict [("idlist", PList [PStr surrogate])])])]).

(** An inference reply that is not JSON and holds a lone surrogate. *)
Definition garbled : string := "not json " ++ surrogate.

Definition garbled_runtime : runtime :=
  strict (runtime_of [(envelope_body garbled, envelope_value garbled)]).

Definition surrogate_world : world :=
  fun _ req =>
    match req with
    | ReqSearch _ _ => Ok body_surrogate
    | _ => Raise unreachable
    end.

End Demo.

(** * Properties *)

(** ** The query planner *)

Lemma firstn3_bounds (l : list string) :
  l <> [] -> 1 <= List.length (firstn 3 l) <= 3.
Proof.
  destruct l as [|a [|b [|c l]]]; cbn; intros H; try lia.
  congruence.
Qed.

Lemma append_fallback_nonnil (l : list string) :
  append_if (match l with [] => true | _ => false end) fallback_query l <> [].
Proof. destruct l; cbn; discriminate. Qed.

Lemma Forall_append_if (P : string -> Prop) c q l :
  P q -> Forall P l -> Forall P (append_if c q l).
Proof.
  intros Hq Hl. destruct c; cbn; auto.
  apply Forall_app. split; auto.
Qed.

Lemma hereditary_nonempty rt l : Forall nonempty (map (hereditary rt) l).
Proof.
  induction l; constructor; auto. unfold hereditary, nonempty. discriminate.
Qed.

Lemma Forall_firstn (P : string -> Prop) n l :
  Forall P l -> Forall P (firstn n l).
Proof.
  intros H. revert n. induction H; intros [|n]; cbn; constructor; auto.
Qed.

Ltac queries_nonempty :=
  repeat first
    [ apply Forall_nil
    | apply Forall_append_if; [unfold nonempty, fallback_query; discriminate|]
    | apply hereditary_nonempty
    | apply Forall_app; split
    | apply Forall_cons; [unfold nonempty; discriminate|]
    | match goal with
      | |- Forall _ (if ?c then _ else _) => destruct c
      end ].

Lemma Ok_inj {A : Type} (a b : A) : Ok a = Ok b -> a = b.
Proof. congruence. Qed.

(** Whatever the profile, a list that is returned has one to three
    entries, none of them empty. *)
Lemma build_search_queries_bounds rt user_data qs :
  build_search_queries rt user_data = Ok qs ->
  1 <= List.length qs <= 3 /\ Forall nonempty qs.
Proof.
  unfold build_search_queries.
  destruct user_data; try discriminate.
  cbn [Py.get rbind].
  destruct (Py.float_ rt _) as [bmi|]; [|discriminate].
  cbn [rbind].
  destruct (Py.iter _) as [conditions|]; [|discriminate].
  cbn [rbind].
  destruct (Py.int_ rt _) as [age|]; [|discriminate].
  cbn [rbind].
  intros H. apply Ok_inj in H. subst qs. split.
  - apply firstn3_bounds, append_fallback_nonnil.
  - apply Forall_firstn. queries_nonempty.
Qed.

Lemma valid_bmi_float d :
  valid_profile d ->
  exists f, forall rt, Py.float_ rt (Py.dict_get d "bmi" (PInt 22)) = Ok f.
Proof.
  intros [_ _ H _ _ _ _]. unfold field in H. unfold Py.dict_get.
  destruct (Py.lookup d "bmi") as [v|].
  - destruct v as [| | z | f | | |]; try contradiction.
    + destruct H as [_ [f Hf]]. exists f. intros rt. exact Hf.
    + exists f. reflexivity.
  - eexists. intros rt. vm_compute. reflexivity.
Qed.

Lemma valid_age_int d :
  valid_profile d ->
  exists a, forall rt, Py.int_ rt (Py.dict_get d "age" (PInt 40)) = Ok a.
Proof.
  intros [H _ _ _ _ _ _]. unfold field in H. unfold Py.dict_get.
  destruct (Py.lookup d "age") as [v|].
  - destruct H as [a [-> _]]. exists a. reflexivity.
  - exists 40%Z. reflexivity.
Qed.

Lemma valid_family_list d :
  valid_profile d ->
  exists l, Py.dict_get d "familyHistory" (PList []) = PList (map PStr l).
Proof.
  intros [_ _ _ _ _ _ H]. unfold field in H. unfold Py.dict_get.
  destruct (Py.lookup d "familyHistory") as [v|].
  - exact H.
  - exists []. reflexivity.
Qed.

(** The query of a condition that is text does not go through [str]. *)
Lemma hereditary_text rt rt' (l : list string) :
  map (hereditary rt) (filter Py.truthy (map PStr l)) =
  map (hereditary rt') (filter Py.truthy (map PStr l)).
Proof.
  induction l as [|s l IH]; cbn [map filter]; [reflexivity|].
  destruct (Py.truthy (PStr s)); cbn [map]; rewrite IH; reflexivity.
Qed.

Lemma build_search_queries_total rt rt' d :
  valid_profile d ->
  exists qs,
    build_search_queries rt (PDict d) = Ok qs /\
    build_search_queries rt' (PDict d) = Ok qs.
Proof.
  intros V.
  destruct (valid_bmi_float d V) as [f Hf].
  destruct (valid_age_int d V) as [a Ha].
  destruct (valid_family_list d V) as [l Hl].
  unfold build_search_queries. cbn [Py.get rbind].
  rewrite (Hf rt), (Hf rt'). cbn [rbind].
  rewrite Hl. cbn [Py.iter rbind].
  rewrite (Ha rt), (Ha rt'). cbn [rbind].
  rewrite (hereditary_text rt rt' l).
  eexists. split; reflexivity.
Qed.

Lemma build_search_queries_fields rt d d' :
  same_fields d d' ->
  build_search_queries rt (PDict d') = build_search_queries rt (PDict d).
Proof.
  intros H. unfold build_search_queries. cbn [Py.get rbind].
  unfold Py.dict_get. rewrite !H. reflexivity.
Qed.

(** C4. For every valid risk profile, [build_search_queries] returns a
    list of one to three queries, none of them empty, and the list is a
    function of the profile alone: any call on a profile with the same
    fields returns the same list. *)
Theorem build_search_queries_valid rt d :
  valid_profile d ->
  exists qs,
    build_search_queries rt (PDict d) = Ok qs /\
    1 <= List.length qs <= 3 /\
    Forall nonempty qs /\
    forall rt' d', same_fields d d' ->
      build_search_queries rt' (PDict d') = Ok qs.
Proof.
  intros V.
  destruct (build_search_queries_total rt rt d V) as [qs [Hqs _]].
  exists qs. split; [exact Hqs|].
  destruct (build_search_queries_bounds rt _ _ Hqs) as [Hlen Hne].
  repeat split; try tauto.
  intros rt' d' Hsame.
  rewrite (build_search_queries_fields rt' d d' Hsame).
  destruct (build_search_queries_total rt rt' d V) as [qs' [H1 H2]].
  congruence.
Qed.

Lemma smoker_valid : valid_profile Demo.smoker.
Proof.
  constructor; cbn.
  - exists 30%Z. split; [reflexivity | lia].
  - exists "male". cbn. auto.
  - split; [lia|]. eexists. vm_compute. reflexivity.
  - exists "current". cbn. auto.
  - exists "none". cbn. auto.
  - eexists. reflexivity.
  - exists []. reflexivity.
Defined.

Lemma build_search_queries_valid_witness :
  valid_profile Demo.smoker /\
  exists qs,
    build_search_queries (Demo.runtime_of []) (PDict Demo.smoker) = Ok qs /\
    1 <= List.length qs <= 3 /\
    Forall nonempty qs /\
    forall rt' d', same_fields Demo.smoker d' ->
      build_search_queries rt' (PDict d') = Ok qs.
Proof.
  split; [exact smoker_valid|].
  apply (build_search_queries_valid (Demo.runtime_of []) Demo.smoker).
  exact smoker_valid.
Defined.

(** C7. For the profile with smokingStatus "current", age 30, sex "male",
    bmi 22, alcohol "none", an empty dietary pattern and no family history,
    [build_search_queries] returns exactly one query, which contains
    "smoking"; no fallback query is added. *)
Theorem build_search_queries_smoker rt :
  exists q,
    build_search_queries rt (PDict Demo.smoker) = Ok [q] /\
    contains "smoking" q = true /\
    q <> fallback_query.
Proof.
  exists "smoking lung cancer risk factors epidemiology".
  split; [vm_compute; reflexivity|].
  split; [vm_compute; reflexivity | discriminate].
Qed.

(** ** Deduplication of the identifiers *)

Lemma remove_keep_first x l :
  List.remove string_dec x (keep_first l) =
  keep_first (List.remove string_dec x l).
Proof.
  induction l as [|y l IH]; [reflexivity|].
  cbn [keep_first List.remove].
  destruct (string_dec x y) as [->|Hxy].
  - rewrite remove_remove_eq. exact IH.
  - cbn [keep_first]. f_equal.
    rewrite remove_remove_comm. f_equal. exact IH.
Qed.

Lemma keep_first_seen x a b :
  In x a -> keep_first (a ++ x :: b) = keep_first (a ++ b).
Proof.
  induction a as [|y a IH]; [contradiction|].
  intros Hin. cbn [app keep_first]. f_equal.
  destruct (string_dec y x) as [->|Hyx].
  - rewrite !remove_keep_first. f_equal.
    rewrite !remove_app. f_equal. cbn [List.remove].
    destruct (string_dec x x); [reflexivity | congruence].
  - destruct Hin as [->|Hin]; [congruence|].
    rewrite (IH Hin). reflexivity.
Qed.

Lemma keep_first_In x l : In x (keep_first l) <-> In x l.
Proof.
  induction l as [|y l IH]; [tauto|].
  cbn [keep_first In]. destruct (string_dec y x) as [->|Hyx]; [tauto|].
  split.
  - intros [H|H]; [tauto|]. apply in_remove in H. tauto.
  - intros [H|H]; [tauto|]. right. apply in_in_remove; [congruence | tauto].
Qed.

Lemma keep_first_NoDup l : NoDup (keep_first l).
Proof.
  induction l as [|y l IH]; [constructor|].
  cbn [keep_first]. constructor.
  - apply remove_In.
  - clear -IH. induction IH as [|z m Hz _ IHm]; [constructor|].
    cbn [List.remove]. destruct (string_dec y z); [exact IHm|].
    constructor; [|exact IHm].
    intros H. apply in_remove in H. tauto.
Qed.

Lemma keep_first_id l : NoDup l -> keep_first l = l.
Proof.
  induction 1 as [|x l Hx _ IH]; [reflexivity|].
  cbn [keep_first]. rewrite IH. f_equal. apply notin_remove. exact Hx.
Qed.

Lemma has_text_key seen x :
  has_key (map text_key seen) (KStr x) = true <-> In x seen.
Proof.
  unfold has_key. rewrite existsb_exists. split.
  - intros [kv [Hin Heq]]. apply in_map_iff in Hin.
    destruct Hin as [y [<- Hy]]. cbn in Heq.
    apply String.eqb_eq in Heq. subst. exact Hy.
  - intros Hin. exists (text_key x). split.
    + apply in_map. exact Hin.
    + cbn. apply String.eqb_refl.
Qed.

Lemma fromkeys_into_text seen l :
  NoDup seen ->
  fromkeys_into (map text_key seen) (map PStr l) =
  Ok (map text_key (keep_first (seen ++ l))).
Proof.
  revert seen. induction l as [|x l IH]; intros seen Hnd.
  - cbn. rewrite app_nil_r, keep_first_id; auto.
  - cbn [map fromkeys_into]. unfold add_key. cbn [key_of rbind].
    destruct (has_key (map text_key seen) (KStr x)) eqn:Hk.
    + apply has_text_key in Hk. rewrite (IH seen Hnd).
      rewrite (keep_first_seen x seen l Hk). reflexivity.
    + assert (Hx : ~ In x seen).
      { intros Hin. apply has_text_key in Hin. congruence. }
      change (map text_key seen ++ [(KStr x, PStr x)])
        with (map text_key seen ++ map text_key [x]).
      rewrite <- map_app. rewrite IH.
      * rewrite <- app_assoc. reflexivity.
      * apply NoDup_app; [exact Hnd | repeat constructor; cbn; tauto |].
        intros y Hy [<-|[]]. contradiction.
Qed.

(** On identifiers that are text, the code's [dict.fromkeys] and slice
    are the deduplication and the cap of the specification. *)
Lemma dedupe_cap_text l :
  dedupe_cap (map PStr l) = Ok (map PStr (firstn 5 (keep_first l))).
Proof.
  unfold dedupe_cap, fromkeys.
  change (@nil (key * pyval)) with (map text_key []).
  rewrite fromkeys_into_text by constructor.
  cbn [rbind app]. rewrite map_map. cbn [text_key snd].
  rewrite firstn_map. reflexivity.
Qed.

Lemma search_all_text rt w (answer : string -> list string) queries :
  (forall q tr, In q queries ->
     fst (search_pubmed rt w q 2 tr) = Ok (PList (map PStr (answer q)))) ->
  forall acc tr,
    fst (search_all rt w queries (map PStr acc) tr) =
    Ok (map PStr (acc ++ flat_map answer queries)).
Proof.
  induction queries as [|q queries IH]; intros H acc tr.
  - cbn. rewrite app_nil_r. reflexivity.
  - cbn [search_all flat_map]. unfold bind at 1.
    specialize (H q tr (or_introl eq_refl)) as Hq.
    destruct (search_pubmed rt w q 2 tr) as [r tr1]. cbn in Hq. subst r.
    unfold bind at 1. cbn [lift Py.iter].
    rewrite <- map_app, app_assoc. apply IH.
    intros q' tr' Hin. apply H. right. exact Hin.
Qed.

(** C5. Step 2 of the handler concatenates the identifier lists of the
    queries in query order, removes duplicates keeping the first
    occurrence, and caps the result at 5 identifiers; in particular the
    lists [A, B] and [B, C] give [A, B, C]. *)
Theorem collect_pmids_dedup rt w (answer : string -> list string)
  queries tr :
  (forall q tr', In q queries ->
     fst (search_pubmed rt w q 2 tr') = Ok (PList (map PStr (answer q)))) ->
  let ids := firstn 5 (keep_first (flat_map answer queries)) in
  fst (collect_pmids rt w queries tr) = Ok (map PStr ids) /\
  NoDup ids /\
  List.length ids <= 5 /\
  (forall x, In x ids -> In x (flat_map answer queries)) /\
  (forall A B C, A <> B -> B <> C -> A <> C ->
     dedupe_cap (map PStr ([A; B] ++ [B; C])) = Ok (map PStr [A; B; C])).
Proof.
  intros H ids. repeat split.
  - unfold collect_pmids, bind.
    pose proof (search_all_text rt w answer queries H [] tr) as Hall.
    cbn [map app] in Hall.
    destruct (search_all rt w queries [] tr) as [r tr1]. cbn in Hall.
    subst r. cbn [lift fst]. apply dedupe_cap_text.
  - unfold ids. clear.
    generalize (keep_first_NoDup (flat_map answer queries)).
    generalize (keep_first (flat_map answer queries)) as l. intros l Hl.
    generalize 5. induction Hl as [|x l Hx _ IH]; intros [|n]; cbn;
      try constructor; auto.
    intros Hin. apply Hx. revert Hin. clear. revert n.
    induction l as [|y l IH]; intros [|n]; cbn; try tauto.
    intros [->|Hin]; [tauto | right; eauto].
  - unfold ids. rewrite length_firstn. lia.
  - intros x Hin. apply keep_first_In. unfold ids in Hin.
    revert Hin. generalize (keep_first (flat_map answer queries)) as l.
    generalize 5. clear. intros n l. revert n.
    induction l as [|y l IH]; intros [|n]; cbn; try tauto.
    intros [->|Hin]; [tauto | right; eauto].
  - intros A B C HAB HBC HAC. rewrite dedupe_cap_text. cbn.
    repeat (match goal with
            | |- context [string_dec ?a ?b] =>
                destruct (string_dec a b); try congruence
            end; cbn).
    reflexivity.
Qed.

Lemma collect_pmids_dedup_witness :
  (forall q tr', In q [Demo.smoking_query; Demo.overweight_query] ->
     fst (search_pubmed Demo.overlap_runtime Demo.overlap_world q 2 tr') =
     Ok (PList (map PStr (Demo.overlap_answer q)))) /\
  fst (collect_pmids Demo.overlap_runtime Demo.overlap_world
         [Demo.smoking_query; Demo.overweight_query] []) =
  Ok [PStr "A"; PStr "B"; PStr "C"].
Proof.
  assert (H : forall q tr',
             In q [Demo.smoking_query; Demo.overweight_query] ->
             fst (search_pubmed Demo.overlap_runtime Demo.overlap_world
                    q 2 tr') =
             Ok (PList (map PStr (Demo.overlap_answer q)))).
  { intros q tr' [<-|[<-|[]]]; vm_compute; reflexivity. }
  split; [exact H|].
  exact (proj1 (collect_pmids_dedup Demo.overlap_runtime Demo.overlap_world
                  Demo.overlap_answer
                  [Demo.smoking_query; Demo.overweight_query] [] H)).
Defined.

(** ** The parse step *)

Lemma keep_some_In {A : Type} (a : A) l : In a (keep_some l) <-> In (Some a) l.
Proof.
  induction l as [|[b|] l IH]; cbn; [tauto| |].
  - rewrite IH. split; intros [H|H]; auto; left; congruence.
  - rewrite IH. split; [auto|]. intros [H|H]; [discriminate | exact H].
Qed.

Lemma keep_some_length l :
  List.length (keep_some (map parse_article l)) =
  List.length (filter has_title_and_abstract l).
Proof.
  induction l as [|a l IH]; [reflexivity|].
  cbn [map filter]. unfold parse_article at 1, has_title_and_abstract at 1.
  destruct (Re.search title_re a), (Re.search abstract_re a);
    cbn; rewrite ?IH; reflexivity.
Qed.

Lemma parse_article_dropped article :
  has_title_and_abstract article = false <-> parse_article article = None.
Proof.
  unfold parse_article, has_title_and_abstract.
  destruct (Re.search title_re article), (Re.search abstract_re article);
    split; intros H; try reflexivity; discriminate.
Qed.

Lemma parse_article_fields article r :
  parse_article article = Some r ->
  exists tm am,
    Re.search title_re article = Some tm /\
    Re.search abstract_re article = Some am /\
    title r = Text.strip (Re.remove tag_re (Re.group1 tm)) /\
    abstract_text r = Text.strip (Re.remove tag_re (Re.group1 am)) /\
    url r = record_url (article_pmid article) /\
    doi r = record_url (article_pmid article).
Proof.
  unfold parse_article.
  destruct (Re.search title_re article) as [tm|]; [|discriminate].
  destruct (Re.search abstract_re article) as [am|]; [|discriminate].
  intros H. injection H as <-. exists tm, am. cbn. repeat split.
Qed.

Lemma parse_abstracts_In xml r :
  In r (parse_abstracts xml) <->
  exists article,
    In article (Re.findall article_re xml) /\ parse_article article = Some r.
Proof.
  unfold parse_abstracts. rewrite keep_some_In, in_map_iff.
  split; intros [a [H1 H2]]; exists a; tauto.
Qed.

Lemma fetch_abstracts_fetched rt w pmids tr xml :
  fetched rt w pmids tr xml ->
  fst (fetch_abstracts rt w pmids tr) = Ok (parse_abstracts xml).
Proof.
  intros [Hne [ids [Hj [He Hw]]]]. unfold fetch_abstracts.
  destruct pmids as [|p pmids]; [congruence|].
  rewrite Hj. unfold bind, lift, try_except, call, ret, urlencode.
  rewrite He, Hw. reflexivity.
Qed.

Lemma fetch_abstracts_cases rt w pmids tr rs :
  fst (fetch_abstracts rt w pmids tr) = Ok rs ->
  rs = [] \/
  exists xml, fetched rt w pmids tr xml /\ rs = parse_abstracts xml.
Proof.
  unfold fetch_abstracts, fetched.
  destruct pmids as [|p pmids].
  - cbn. intros H. left. congruence.
  - destruct (Py.join "," (PList (p :: pmids))) as [ids|e] eqn:Hj.
    + unfold bind, lift, try_except, call, ret, urlencode.
      destruct (encodable rt ids) eqn:He; [|cbn; discriminate].
      destruct (w tr (ReqFetch ids)) as [xml|e] eqn:Hw; cbn; intros H.
      * right. exists xml. split; [|congruence].
        split; [discriminate|]. exists ids. auto.
      * left. congruence.
    + cbn. discriminate.
Qed.

(** C1, as the code has it. Every record returned by [fetch_abstracts]
    comes from a block of the fetch response in which both the title
    pattern and the abstract pattern match, and carries the matched texts
    with markup removed and stripped; the blocks in which either is missing
    are dropped, so that there are as many records as blocks with both.
    The stripped texts can be empty. *)
Theorem fetch_abstracts_records rt w pmids tr rs :
  fst (fetch_abstracts rt w pmids tr) = Ok rs ->
  (forall r, In r rs ->
     exists xml article tm am,
       fetched rt w pmids tr xml /\
       In article (Re.findall article_re xml) /\
       Re.search title_re article = Some tm /\
       Re.search abstract_re article = Some am /\
       title r = Text.strip (Re.remove tag_re (Re.group1 tm)) /\
       abstract_text r = Text.strip (Re.remove tag_re (Re.group1 am))) /\
  (forall xml, fetched rt w pmids tr xml ->
     List.length rs =
     List.length (filter has_title_and_abstract (Re.findall article_re xml)) /\
     forall article, has_title_and_abstract article = false ->
                     parse_article article = None).
Proof.
  intros H. split.
  - intros r Hin.
    destruct (fetch_abstracts_cases rt w pmids tr rs H)
      as [->|[xml [Hf ->]]]; [contradiction|].
    apply parse_abstracts_In in Hin. destruct Hin as [article [Ha Hp]].
    destruct (parse_article_fields article r Hp)
      as [tm [am [Ht [Hab [Htitle [Habs _]]]]]].
    exists xml, article, tm, am. tauto.
  - intros xml Hf.
    rewrite (fetch_abstracts_fetched rt w pmids tr xml Hf) in H.
    apply Ok_inj in H. subst rs. split.
    + apply keep_some_length.
    + intros article. apply parse_article_dropped.
Qed.

Lemma fetch_abstracts_records_witness :
  fst (fetch_abstracts (Demo.runtime_of []) (Demo.fetch_world Demo.xml_three)
         [PStr "101"; PStr "102"; PStr "103"] []) =
  Ok [{| title := "Obesity and risk";
         abstract_text := "Background.";
         url := "https://pubmed.ncbi.nlm.nih.gov/101/";
         doi := "https://pubmed.ncbi.nlm.nih.gov/101/";
         year := Some "2021" |}] /\
  List.length
    (filter has_title_and_abstract
       (Re.findall article_re Demo.xml_three)) = 1.
Proof.
  assert (H : fst (fetch_abstracts (Demo.runtime_of []) (Demo.fetch_world Demo.xml_three)
                     [PStr "101"; PStr "102"; PStr "103"] []) =
              Ok [{| title := "Obesity and risk";
                     abstract_text := "Background.";
                     url := "https://pubmed.ncbi.nlm.nih.gov/101/";
                     doi := "https://pubmed.ncbi.nlm.nih.gov/101/";
                     year := Some "2021" |}]).
  { vm_compute. reflexivity. }
  split; [exact H|].
  assert (F : fetched (Demo.runtime_of []) (Demo.fetch_world Demo.xml_three)
                [PStr "101"; PStr "102"; PStr "103"] [] Demo.xml_three).
  { split; [discriminate|]. exists "101,102,103".
    repeat split; reflexivity. }
  rewrite <- (proj1 (proj2 (fetch_abstracts_records _ _ _ _ _ H) _ F)).
  reflexivity.
Defined.

(** C1 as stated fails: a block whose title element is empty gives a
    record with an empty title. *)
Lemma fetch_abstracts_empty_title :
  exists rs,
    fst (fetch_abstracts (Demo.runtime_of []) (Demo.fetch_world Demo.xml_empty_title)
           [PStr "31415"] []) = Ok rs /\
    ~ (forall r, In r rs ->
         nonempty (title r) /\ nonempty (abstract_text r)).
Proof.
  eexists. split; [vm_compute; reflexivity|].
  intros H. destruct (H _ (or_introl eq_refl)) as [Ht _].
  apply Ht. reflexivity.
Qed.

(** C9. A block of the fetch response that has a title and an abstract
    and no PMID element that the pattern matches still gives a record; its
    identifier is the placeholder "unknown", so its url and its doi are
    both "https://pubmed.ncbi.nlm.nih.gov/unknown/". *)
Theorem fetch_abstracts_unknown_pmid rt w pmids tr xml article :
  fetched rt w pmids tr xml ->
  In article (Re.findall article_re xml) ->
  has_title_and_abstract article = true ->
  Re.search pmid_re article = None ->
  exists rs r,
    fst (fetch_abstracts rt w pmids tr) = Ok rs /\
    In r rs /\
    parse_article article = Some r /\
    url r = "https://pubmed.ncbi.nlm.nih.gov/unknown/" /\
    doi r = "https://pubmed.ncbi.nlm.nih.gov/unknown/".
Proof.
  intros Hf Hin Hboth Hpmid.
  destruct (parse_article article) as [r|] eqn:Hp.
  - exists (parse_abstracts xml), r.
    split; [apply fetch_abstracts_fetched; exact Hf|].
    split; [apply parse_abstracts_In; exists article; tauto|].
    split; [reflexivity|].
    destruct (parse_article_fields article r Hp)
      as [_ [_ [_ [_ [_ [_ [Hu Hd]]]]]]].
    rewrite Hu, Hd. unfold article_pmid. rewrite Hpmid.
    split; reflexivity.
  - apply parse_article_dropped in Hp. congruence.
Qed.

Lemma fetch_abstracts_unknown_pmid_witness :
  fetched (Demo.runtime_of []) (Demo.fetch_world Demo.xml_no_pmid) [PStr "7"] []
    Demo.xml_no_pmid /\
  In Demo.block_no_pmid (Re.findall article_re Demo.xml_no_pmid) /\
  has_title_and_abstract Demo.block_no_pmid = true /\
  Re.search pmid_re Demo.block_no_pmid = None /\
  exists rs r,
    fst (fetch_abstracts (Demo.runtime_of []) (Demo.fetch_world Demo.xml_no_pmid)
           [PStr "7"] []) = Ok rs /\
    In r rs /\
    parse_article Demo.block_no_pmid = Some r /\
    url r = "https://pubmed.ncbi.nlm.nih.gov/unknown/" /\
    doi r = "https://pubmed.ncbi.nlm.nih.gov/unknown/".
Proof.
  assert (F : fetched (Demo.runtime_of []) (Demo.fetch_world Demo.xml_no_pmid) [PStr "7"] []
                Demo.xml_no_pmid).
  { split; [discriminate|]. exists "7". repeat split; reflexivity. }
  assert (I : In Demo.block_no_pmid
                (Re.findall article_re Demo.xml_no_pmid)).
  { vm_compute. left. reflexivity. }
  assert (B : has_title_and_abstract Demo.block_no_pmid = true).
  { vm_compute. reflexivity. }
  assert (P : Re.search pmid_re Demo.block_no_pmid = None).
  { vm_compute. reflexivity. }
  repeat (split; [assumption|]).
  exact (fetch_abstracts_unknown_pmid _ _ _ _ _ _ F I B P).
Defined.

(** C10. In every record produced by [fetch_abstracts] the doi is the
    same text as the url, and both are the record URL built from the
    identifier of the block the record comes from. *)
Theorem fetch_abstracts_doi_is_url rt w pmids tr rs r :
  fst (fetch_abstracts rt w pmids tr) = Ok rs ->
  In r rs ->
  doi r = url r /\
  exists article,
    parse_article article = Some r /\
    url r =
      ("https://pubmed.ncbi.nlm.nih.gov/" ++ article_pmid article ++ "/")%string.
Proof.
  intros H Hin.
  destruct (fetch_abstracts_cases rt w pmids tr rs H)
    as [->|[xml [Hf ->]]]; [contradiction|].
  apply parse_abstracts_In in Hin. destruct Hin as [article [Ha Hp]].
  destruct (parse_article_fields article r Hp)
    as [_ [_ [_ [_ [_ [_ [Hu Hd]]]]]]].
  split; [congruence|]. exists article. split; [exact Hp | exact Hu].
Qed.

Lemma fetch_abstracts_doi_is_url_witness :
  exists rs r,
    fst (fetch_abstracts (Demo.runtime_of []) (Demo.fetch_world Demo.xml_three)
           [PStr "101"; PStr "102"; PStr "103"] []) = Ok rs /\
    In r rs /\
    doi r = url r /\
    url r = "https://pubmed.ncbi.nlm.nih.gov/101/".
Proof.
  eexists. eexists.
  assert (H : fst (fetch_abstracts (Demo.runtime_of []) (Demo.fetch_world Demo.xml_three)
                     [PStr "101"; PStr "102"; PStr "103"] []) =
              Ok [{| title := "Obesity and risk";
                     abstract_text := "Background.";
                     url := "https://pubmed.ncbi.nlm.nih.gov/101/";
                     doi := "https://pubmed.ncbi.nlm.nih.gov/101/";
                     year := Some "2021" |}]).
  { vm_compute. reflexivity. }
  split; [exact H|].
  split; [left; reflexivity|].
  split; [|reflexivity].
  exact (proj1 (fetch_abstracts_doi_is_url _ _ _ _ _ _ H
                  (or_introl eq_refl))).
Defined.

(** ** The retrieval stage *)

Lemma search_request_returns rt w q n tr :
  exists v, search_request rt w q n tr = (Ok v, tr ++ [ReqSearch q n]).
Proof.
  unfold search_request, try_except, bind, call, lift, ret.
  destruct (w tr (ReqSearch q n)) as [body|e]; [|eexists; reflexivity].
  destruct (loads rt body) as [data|e]; [|eexists; reflexivity].
  destruct (Py.get data "esearchresult" (PDict [])) as [er|e];
    [|eexists; reflexivity].
  destruct (Py.get er "idlist" (PList [])) as [ids|e]; eexists; reflexivity.
Qed.

(** The one way out of [search_pubmed] with an exception is the URL. *)
Lemma search_pubmed_cases rt w q n tr :
  (encodable rt q = false /\
   search_pubmed rt w q n tr = (Raise UnicodeEncodeError, tr)) \/
  (encodable rt q = true /\
   exists v, search_pubmed rt w q n tr = (Ok v, tr ++ [ReqSearch q n])).
Proof.
  unfold search_pubmed, bind, lift, urlencode.
  destruct (encodable rt q); [right | left]; split; auto.
  apply search_request_returns.
Qed.

Lemma strs_text ids : Py.strs (map PStr ids) = Ok ids.
Proof.
  induction ids as [|x ids IH]; [reflexivity|].
  cbn [map Py.strs]. rewrite IH. reflexivity.
Qed.

Lemma join_text sep ids :
  Py.join sep (PList (map PStr ids)) = Ok (Text.join sep ids).
Proof. unfold Py.join. cbn [Py.iter rbind]. rewrite strs_text. reflexivity. Qed.

(** C3, the failing inputs. In [fetch_abstracts] the join and [urlencode]
    stand before the [try], in [search_pubmed] [urlencode] does.  A search
    response whose identifier list holds a number is returned as it is by
    [search_pubmed], and the join raises TypeError; an identifier that
    holds a lone surrogate is joined, and [urlencode] raises
    UnicodeEncodeError before any fetch; a query that holds a lone
    surrogate makes [search_pubmed] raise before any search.  In each case
    the retrieval stage raises. *)
Lemma retrieve_raises :
  fst (search_pubmed Demo.int_runtime Demo.int_world Demo.smoking_query 2 [])
    = Ok (PList [PInt 7]) /\
  fst (fetch_abstracts Demo.int_runtime Demo.int_world [PInt 7]
         [ReqSearch Demo.smoking_query 2]) = Raise TypeError /\
  fst (retrieve Demo.int_runtime Demo.int_world [Demo.smoking_query] [])
    = Raise TypeError /\
  fst (search_pubmed Demo.surrogate_runtime Demo.surrogate_world
         Demo.smoking_query 2 []) = Ok (PList [PStr Demo.surrogate]) /\
  retrieve Demo.surrogate_runtime Demo.surrogate_world
    [Demo.smoking_query] [] =
    (Raise UnicodeEncodeError, [ReqSearch Demo.smoking_query 2]) /\
  retrieve Demo.surrogate_runtime Demo.surrogate_world
    [("hereditary " ++ Demo.surrogate)%string; Demo.smoking_query] [] =
    (Raise UnicodeEncodeError, []).
Proof. repeat split; vm_compute; reflexivity. Qed.

(** ** Synthesis *)

Lemma invoke_bedrock_answered rt w user_data abstracts tr message body text :
  user_message rt user_data abstracts = Ok message ->
  w tr (ReqInvoke message) = Ok body ->
  response_text rt body = Ok (PStr text) ->
  invoke_bedrock rt w user_data abstracts tr =
  (json_outcome rt (strip_fences text), tr ++ [ReqInvoke message]).
Proof.
  intros Hm Hw Hr.
  unfold invoke_bedrock, bind, lift, try_except, bedrock_text, call.
  rewrite Hm. unfold bind, lift. rewrite Hw, Hr. cbn [as_text].
  unfold json_outcome, loads, print, throw, ret.
  destruct (json_loads rt (strip_fences text)) as [report|e];
    [reflexivity|].
  destruct (is_JSONDecodeError e); [|reflexivity].
  destruct (encodable rt _); reflexivity.
Qed.

Lemma fence_not_here c x :
  Ascii.eqb c "`" = false -> Re.match_alt fence_re (String c x) = None.
Proof.
  intros H. unfold fence_re.
  cbn [Re.match_alt Re.match_here Text.drop_prefix].
  rewrite Ascii.eqb_sym, H. reflexivity.
Qed.

Lemma remove_fence_clear a b :
  lacks "`" a = true ->
  Re.remove fence_re (a ++ b) = (a ++ Re.remove fence_re b)%string.
Proof.
  unfold Re.remove. induction a as [|c a IH]; cbn [lacks append]; intros H.
  - reflexivity.
  - apply andb_prop in H. destruct H as [Hc Ha].
    apply negb_true_iff in Hc.
    cbn [Re.sub_from]. rewrite (fence_not_here c _ Hc).
    rewrite (IH Ha). reflexivity.
Qed.

Lemma lstrip_space_end j c :
  Text.isspace c = true ->
  Text.lstrip (j ++ String c EmptyString) =
  match Text.lstrip j with
  | EmptyString => EmptyString
  | t => (t ++ String c EmptyString)%string
  end.
Proof.
  intros Hc. induction j as [|a j IH]; cbn [append Text.lstrip].
  - rewrite Hc. reflexivity.
  - destruct (Text.isspace a); [exact IH | reflexivity].
Qed.

Lemma rstrip_space_end t c :
  Text.isspace c = true ->
  Text.rstrip (t ++ String c EmptyString) = Text.rstrip t.
Proof.
  intros Hc. induction t as [|a t IH]; cbn [append Text.rstrip].
  - rewrite Hc. reflexivity.
  - rewrite IH. reflexivity.
Qed.

Lemma strip_space_end j c :
  Text.isspace c = true ->
  Text.strip (j ++ String c EmptyString) = Text.strip j.
Proof.
  intros Hc. unfold Text.strip. rewrite (lstrip_space_end j c Hc).
  destruct (Text.lstrip j) as [|a t]; [reflexivity|].
  apply rstrip_space_end. exact Hc.
Qed.

Lemma strip_fences_wrapped opening j :
  Re.remove fence_re (opening ++ nl ++ j ++ nl ++ "```") =
    Re.remove fence_re (nl ++ j ++ nl ++ "```") ->
  lacks "`" j = true ->
  strip_fences (opening ++ nl ++ j ++ nl ++ "```") = Text.strip j.
Proof.
  intros Hopen H. unfold strip_fences. rewrite Hopen.
  change (nl ++ j ++ nl ++ "```")%string
    with (String Text.newline (j ++ nl ++ "```")).
  unfold Re.remove. cbn [Re.sub_from].
  rewrite fence_not_here by reflexivity.
  change (Re.sub_from fence_re (j ++ nl ++ "```") 0)
    with (Re.remove fence_re (j ++ nl ++ "```")).
  rewrite (remove_fence_clear j _ H).
  rewrite (remove_fence_clear nl "```" eq_refl).
  change (Re.remove fence_re "```") with EmptyString.
  change (String Text.newline (j ++ nl ++ EmptyString))
    with (String Text.newline (j ++ nl)).
  unfold Text.strip at 1. cbn [Text.lstrip].
  replace (Text.isspace Text.newline) with true by reflexivity.
  apply (strip_space_end j Text.newline). reflexivity.
Qed.




Lemma lookup_dict_set_same d k v : Py.lookup (Py.dict_set d k v) k = Some v.
Proof.
  induction d as [|[k' v'] d IH]; cbn.
  - rewrite String.eqb_refl. reflexivity.
  - destruct (String.eqb k' k) eqn:E; cbn; rewrite E; auto.
Qed.

Lemma lookup_dict_set_other d k v k' :
  k' <> k -> Py.lookup (Py.dict_set d k v) k' = Py.lookup d k'.
Proof.
  intros Hne. induction d as [|[k0 v0] d IH]; cbn.
  - destruct (String.eqb k k') eqn:E; [|reflexivity].
    apply String.eqb_eq in E. congruence.
  - destruct (String.eqb k0 k) eqn:E; cbn.
    + destruct (String.eqb k0 k') eqn:E'; [|reflexivity].
      apply String.eqb_eq in E, E'. congruence.
    + rewrite IH. reflexivity.
Qed.

Lemma user_message_valid rt d abstracts :
  valid_profile d ->
  exists message, user_message rt (PDict d) abstracts = Ok message.
Proof.
  intros V. destruct (valid_family_list d V) as [l Hl].
  unfold user_message. cbn [Py.get rbind]. rewrite Hl, join_text.
  cbn [rbind]. eexists. reflexivity.
Qed.

(** C2, as the code has it. For a valid profile and an inference response
    whose text, fences removed, is JSON of the report shape, synthesis
    returns the report with the input evidence set attached and with the
    insights of the response unchanged: every insight carries a citation
    exactly when every insight of the response does.  The code makes no
    check of its own on the citations. *)
Theorem synthesize_report rt w d abstracts context tr body text report :
  valid_profile d ->
  (forall message,
     user_message rt (PDict d) abstracts = Ok message ->
     w tr (ReqInvoke message) = Ok body) ->
  response_text rt body = Ok (PStr text) ->
  json_loads rt (strip_fences text) = Ok report ->
  report_shape report = true ->
  exists report',
    fst (synthesize rt w (PDict d) abstracts context tr) = Ok report' /\
    evidence_of report' = Some (PList (map abstract_py abstracts)) /\
    insights_of report' = insights_of report /\
    all_cited report' = all_cited report.
Proof.
  intros V Hw Hr Hj Hshape.
  destruct (user_message_valid rt d abstracts V) as [message Hm].
  specialize (Hw message Hm).
  destruct report as [| | | | | |rd]; try discriminate.
  unfold synthesize, bind.
  rewrite (invoke_bedrock_answered _ _ _ _ _ _ _ _ Hm Hw Hr).
  unfold json_outcome. rewrite Hj.
  cbn [lift Py.setitem_str fst].
  eexists. split; [reflexivity|].
  assert (Hins : insights_of
                   (PDict (Py.dict_set
                             (Py.dict_set rd "searchedAbstracts"
                                (PList (map abstract_py abstracts)))
                             "timestamp" (PStr (aws_request_id context)))) =
                 insights_of (PDict rd)).
  { unfold insights_of.
    rewrite !lookup_dict_set_other by discriminate. reflexivity. }
  split; [|split].
  - unfold evidence_of. rewrite lookup_dict_set_other by discriminate.
    apply lookup_dict_set_same.
  - exact Hins.
  - unfold all_cited. rewrite Hins. reflexivity.
Qed.

Lemma synthesize_report_witness :
  valid_profile Demo.smoker /\
  response_text Demo.bedrock_runtime
    (Demo.envelope_body (Demo.fenced Demo.cited_json)) =
    Ok (PStr (Demo.fenced Demo.cited_json)) /\
  json_loads Demo.bedrock_runtime
    (strip_fences (Demo.fenced Demo.cited_json)) = Ok Demo.cited_report /\
  report_shape Demo.cited_report = true /\
  exists report',
    fst (synthesize Demo.bedrock_runtime
           (Demo.bedrock_world (Demo.fenced Demo.cited_json))
           (PDict Demo.smoker) Demo.evidence Demo.lambda []) = Ok report' /\
    evidence_of report' = Some (PList (map abstract_py Demo.evidence)) /\
    insights_of report' = insights_of Demo.cited_report /\
    all_cited report' = all_cited Demo.cited_report.
Proof.
  assert (Hr : response_text Demo.bedrock_runtime
                 (Demo.envelope_body (Demo.fenced Demo.cited_json)) =
               Ok (PStr (Demo.fenced Demo.cited_json)))
    by (vm_compute; reflexivity).
  assert (Hj : json_loads Demo.bedrock_runtime
                 (strip_fences (Demo.fenced Demo.cited_json)) =
               Ok Demo.cited_report) by (vm_compute; reflexivity).
  assert (Hs : report_shape Demo.cited_report = true)
    by (vm_compute; reflexivity).
  split; [exact smoker_valid|]. split; [exact Hr|]. split; [exact Hj|].
  split; [exact Hs|].
  exact (synthesize_report Demo.bedrock_runtime
           (Demo.bedrock_world (Demo.fenced Demo.cited_json))
           Demo.smoker Demo.evidence Demo.lambda []
           _ _ _ smoker_valid (fun _ _ => eq_refl) Hr Hj Hs).
Defined.

(** C2 as stated fails: a response of the report shape whose insight has
    an empty citation list is returned with that insight uncited. *)
Lemma synthesize_uncited :
  valid_profile Demo.smoker /\
  Demo.evidence <> [] /\
  json_loads Demo.bedrock_runtime
    (strip_fences (Demo.fenced Demo.uncited_json)) =
    Ok Demo.uncited_report /\
  report_shape Demo.uncited_report = true /\
  exists report',
    fst (synthesize Demo.bedrock_runtime
           (Demo.bedrock_world (Demo.fenced Demo.uncited_json))
           (PDict Demo.smoker) Demo.evidence Demo.lambda []) = Ok report' /\
    evidence_of report' = Some (PList (map abstract_py Demo.evidence)) /\
    forallb cited (insights_of report') = false.
Proof.
  split; [exact smoker_valid|]. split; [discriminate|].
  split; [vm_compute; reflexivity|]. split; [vm_compute; reflexivity|].
  eexists. split; [vm_compute; reflexivity|].
  split; vm_compute; reflexivity.
Qed.

(** ** The handler *)

Lemma search_all_quiet rt w queries :
  forall acc tr r tr',
    search_all rt w queries acc tr = (r, tr') ->
    exists added, tr' = tr ++ added /\ quiet added.
Proof.
  induction queries as [|q queries IH]; intros acc tr r tr'.
  - cbn. intros [= _ <-]. exists []. split; [now rewrite app_nil_r|constructor].
  - cbn [search_all]. unfold bind at 1.
    destruct (search_pubmed_cases rt w q 2 tr) as [[_ ->]|[_ [v ->]]].
    { intros [= _ <-]. exists [].
      split; [now rewrite app_nil_r|constructor]. }
    unfold bind at 1. unfold lift at 1.
    destruct (Py.iter v) as [items|e].
    + intros H. apply IH in H. destruct H as [added [-> Hq]].
      exists (ReqSearch q 2 :: added). split.
      * rewrite <- app_assoc. reflexivity.
      * constructor; [reflexivity | exact Hq].
    + intros [= _ <-]. exists [ReqSearch q 2]. split; [reflexivity|].
      repeat constructor.
Qed.

Lemma fetch_abstracts_quiet rt w pmids tr r tr' :
  fetch_abstracts rt w pmids tr = (r, tr') ->
  exists added, tr' = tr ++ added /\ quiet added.
Proof.
  unfold fetch_abstracts. destruct pmids as [|p pmids].
  - cbn. intros [= _ <-]. exists []. split; [now rewrite app_nil_r|constructor].
  - destruct (Py.join "," (PList (p :: pmids))) as [ids|e].
    + unfold bind, lift, try_except, call, ret, urlencode.
      destruct (encodable rt ids).
      * destruct (w tr (ReqFetch ids)); intros [= _ <-];
          exists [ReqFetch ids]; split; try reflexivity; repeat constructor.
      * intros [= _ <-]. exists [].
        split; [now rewrite app_nil_r|constructor].
    + cbn. intros [= _ <-]. exists [].
      split; [now rewrite app_nil_r|constructor].
Qed.

Lemma retrieve_quiet rt w queries tr r tr' :
  retrieve rt w queries tr = (r, tr') ->
  exists added, tr' = tr ++ added /\ quiet added.
Proof.
  unfold retrieve, collect_pmids, bind.
  destruct (search_all rt w queries [] tr) as [r1 tr1] eqn:H1.
  apply search_all_quiet in H1. destruct H1 as [a1 [-> Q1]].
  destruct r1 as [all|e].
  - unfold lift. destruct (dedupe_cap all) as [ids|e].
    + intros H. apply fetch_abstracts_quiet in H.
      destruct H as [a2 [-> Q2]]. exists (a1 ++ a2).
      split; [now rewrite app_assoc|]. apply Forall_app. tauto.
    + intros [= _ <-]. exists a1. tauto.
  - intros [= _ <-]. exists a1. tauto.
Qed.

(** C8. When the request reaches the retrieval stage and no usable record
    comes out of it, the handler answers 502 with its own message, which
    is not the answer of the generic failure path (500), and the inference
    service is not invoked. *)
Theorem handler_no_abstracts rt w event context tr body user_data
  queries tr' :
  Py.eq_str (Py.dict_get event "httpMethod" PNone) "OPTIONS" = false ->
  loads_val rt (Py.dict_get event "body" (PStr "{}")) = Ok body ->
  Py.get body "userData" (PDict []) = Ok user_data ->
  Py.truthy user_data = true ->
  build_search_queries rt user_data = Ok queries ->
  retrieve rt w queries tr = (Ok [], tr') ->
  handler rt w (PDict event) context tr =
    (Ok (respond 502 (error_body no_abstracts_message)), tr') /\
  (forall e, respond 502 (error_body no_abstracts_message) <>
             respond 500 (error_body (exn_str rt e))) /\
  (forall message, In (ReqInvoke message) tr' -> In (ReqInvoke message) tr).
Proof.
  intros Hopt Hbody Hud Htruthy Hq Hret. split; [|split].
  - unfold handler, try_except, bind, lift. cbn [Py.get]. rewrite Hopt.
    rewrite Hbody, Hud, Htruthy.
    cbn [negb]. rewrite Hq, Hret. reflexivity.
  - intros e. unfold respond. intros H. discriminate H.
  - intros message Hin.
    destruct (retrieve_quiet _ _ _ _ _ _ Hret) as [added [-> Hquiet]].
    apply in_app_or in Hin. destruct Hin as [Hin|Hin]; [exact Hin|].
    unfold quiet in Hquiet. rewrite Forall_forall in Hquiet.
    apply Hquiet in Hin. discriminate Hin.
Qed.

Lemma handler_no_abstracts_witness :
  retrieve Demo.event_runtime Demo.dead_world [Demo.smoking_query] [] =
    (Ok [], [ReqSearch Demo.smoking_query 2]) /\
  handler Demo.event_runtime Demo.dead_world (PDict Demo.smoker_event)
    Demo.lambda []
  = (Ok (respond 502 (error_body no_abstracts_message)),
     [ReqSearch Demo.smoking_query 2]).
Proof.
  assert (Hret : retrieve Demo.event_runtime Demo.dead_world
                   [Demo.smoking_query] [] =
                 (Ok [], [ReqSearch Demo.smoking_query 2]))
    by (vm_compute; reflexivity).
  split; [exact Hret|].
  refine (proj1 (handler_no_abstracts Demo.event_runtime Demo.dead_world
                   Demo.smoker_event Demo.lambda []
                   (PDict [("userData", PDict Demo.smoker)])
                   (PDict Demo.smoker) [Demo.smoking_query]
                   [ReqSearch Demo.smoking_query 2] _ _ _ _ _ Hret));
    vm_compute; reflexivity.
Defined.

(** * Further properties *)

(** ** The handler as a whole *)

Lemma search_all_trace rt w queries :
  forall acc tr r tr',
    search_all rt w queries acc tr = (r, tr') ->
    exists searched,
      tr' = tr ++ map (fun q => ReqSearch q 2) searched /\
      List.length searched <= List.length queries.
Proof.
  induction queries as [|q queries IH]; intros acc tr r tr'.
  - cbn. intros [= _ <-]. exists []. cbn. rewrite app_nil_r. auto.
  - cbn [search_all]. unfold bind at 1.
    destruct (search_pubmed_cases rt w q 2 tr) as [[_ ->]|[_ [v ->]]].
    { intros [= _ <-]. exists []. cbn. rewrite app_nil_r. split; [auto | lia]. }
    unfold bind at 1. unfold lift at 1.
    destruct (Py.iter v) as [items|e].
    + intros H. apply IH in H. destruct H as [searched [-> Hlen]].
      exists (q :: searched). cbn [map List.length].
      rewrite <- app_assoc. split; [reflexivity | lia].
    + intros [= _ <-]. exists [q]. cbn. split; [reflexivity | lia].
Qed.

Lemma fetch_abstracts_trace rt w pmids tr r tr' :
  fetch_abstracts rt w pmids tr = (r, tr') ->
  (tr' = tr \/ exists ids, tr' = tr ++ [ReqFetch ids]) /\
  (forall a rs, r = Ok (a :: rs) -> exists ids, tr' = tr ++ [ReqFetch ids]).
Proof.
  unfold fetch_abstracts. destruct pmids as [|p pmids].
  - cbn. intros [= <- <-]. split; [tauto | discriminate].
  - destruct (Py.join "," (PList (p :: pmids))) as [ids|e].
    + unfold bind, lift, try_except, call, ret, urlencode.
      destruct (encodable rt ids).
      * destruct (w tr (ReqFetch ids)); intros [= <- <-]; split; eauto.
      * intros [= <- <-]. split; [tauto | discriminate].
    + cbn. intros [= <- <-]. split; [tauto | discriminate].
Qed.

Lemma invoke_bedrock_trace rt w user_data abstracts tr r tr' :
  invoke_bedrock rt w user_data abstracts tr = (r, tr') ->
  (tr' = tr \/ exists message, tr' = tr ++ [ReqInvoke message]) /\
  (forall v, r = Ok v -> exists message, tr' = tr ++ [ReqInvoke message]).
Proof.
  unfold invoke_bedrock, bind.
  destruct (user_message rt user_data abstracts) as [message|e]; cbn [lift].
  - unfold try_except, bedrock_text, bind, call, lift, throw, ret.
    destruct (w tr (ReqInvoke message)) as [body|e].
    + destruct (response_text rt body) as [raw|e].
      * destruct (as_text raw) as [text|e].
        -- unfold loads, print.
           destruct (json_loads rt (strip_fences text)) as [v|e];
             [intros [= <- <-]; split; eauto|].
           destruct (is_JSONDecodeError e);
             [destruct (encodable rt _)|]; cbn;
             intros [= <- <-]; split; eauto.
        -- intros [= <- <-]. split; eauto.
      * destruct (is_JSONDecodeError e); intros [= <- <-]; split; eauto.
    + destruct (is_JSONDecodeError e); intros [= <- <-]; split; eauto.
  - intros [= <- <-]. split; [tauto | discriminate].
Qed.

Lemma synthesize_trace rt w user_data abstracts context tr r tr' :
  synthesize rt w user_data abstracts context tr = (r, tr') ->
  (tr' = tr \/ exists message, tr' = tr ++ [ReqInvoke message]) /\
  (forall v, r = Ok v -> exists message, tr' = tr ++ [ReqInvoke message]).
Proof.
  unfold synthesize, bind.
  destruct (invoke_bedrock rt w user_data abstracts tr) as [r1 tr1] eqn:H1.
  apply invoke_bedrock_trace in H1. destruct H1 as [Hany Hok].
  destruct r1 as [v|e].
  - destruct (Hok v eq_refl) as [message ->]. unfold lift.
    destruct (Py.setitem_str v _ _); intros [= <- <-]; split; eauto.
  - intros [= <- <-]. split; [exact Hany | discriminate].
Qed.

Lemma retrieve_trace rt w queries tr r tr' :
  retrieve rt w queries tr = (r, tr') ->
  exists searched rest,
    tr' = tr ++ map (fun q => ReqSearch q 2) searched ++ rest /\
    List.length searched <= List.length queries /\
    (rest = [] \/ exists ids, rest = [ReqFetch ids]) /\
    (forall a rs, r = Ok (a :: rs) -> exists ids, rest = [ReqFetch ids]).
Proof.
  unfold retrieve, collect_pmids, bind.
  destruct (search_all rt w queries [] tr) as [r1 tr1] eqn:H1.
  apply search_all_trace in H1. destruct H1 as [searched [-> Hlen]].
  destruct r1 as [all|e].
  - unfold lift. destruct (dedupe_cap all) as [ids|e].
    + intros Hf. apply fetch_abstracts_trace in Hf.
      destruct Hf as [Hany Hok]. exists searched.
      destruct Hany as [->|[j ->]].
      * exists []. rewrite app_nil_r. repeat split; auto.
        intros a rs Hr. destruct (Hok a rs Hr) as [j Hj].
        exfalso. apply (f_equal (@List.length _)) in Hj.
        rewrite !length_app in Hj. cbn in Hj. lia.
      * exists [ReqFetch j]. rewrite <- app_assoc. repeat split; eauto.
    + intros [= <- <-]. exists searched, []. rewrite app_nil_r.
      repeat split; auto. discriminate.
  - intros [= <- <-]. exists searched, []. rewrite app_nil_r.
    repeat split; auto. discriminate.
Qed.

(** X1. For an event that is a dict the handler never raises: whatever the
    runtime and the external calls do, it returns a response with the CORS
    headers and one of the status codes 200, 400, 500 and 502.  For an
    event that is not a dict, [event.get] stands before the [try]: the
    handler raises AttributeError and makes no external call. *)
Theorem handler_outcome rt w event context tr :
  match event with
  | PDict _ =>
      exists resp tr',
        handler rt w event context tr = (Ok resp, tr') /\
        headers resp = cors_headers /\
        In (statusCode resp) [200; 400; 500; 502]%Z
  | _ => handler rt w event context tr = (Raise AttributeError, tr)
  end.
Proof.
  destruct event as [| | | | | |event]; try reflexivity.
  unfold handler, try_except, bind, lift. cbn [Py.get].
  destruct (Py.eq_str (Py.dict_get event "httpMethod" PNone) "OPTIONS").
  { eexists. eexists. split; [reflexivity|]. cbn. tauto. }
  destruct (loads_val rt _) as [body|e];
    [|eexists; eexists; split; [reflexivity|]; cbn; tauto].
  destruct (Py.get body "userData" (PDict [])) as [user_data|e];
    [|eexists; eexists; split; [reflexivity|]; cbn; tauto].
  destruct (Py.truthy user_data); cbn [negb];
    [|eexists; eexists; split; [reflexivity|]; cbn; tauto].
  destruct (build_search_queries rt user_data) as [queries|e];
    [|eexists; eexists; split; [reflexivity|]; cbn; tauto].
  destruct (retrieve rt w queries tr) as [[abstracts|e] tr1];
    [|eexists; eexists; split; [reflexivity|]; cbn; tauto].
  destruct abstracts as [|a abstracts];
    [eexists; eexists; split; [reflexivity|]; cbn; tauto|].
  destruct (synthesize rt w user_data (a :: abstracts) context tr1)
    as [[report|e] tr2];
    eexists; eexists; (split; [reflexivity|]); cbn; tauto.
Qed.

(** X2. The handler touches the network only for a request that is not
    OPTIONS, whose body is JSON with a non-empty userData, and for which
    the queries could be built. *)
Theorem handler_calls_need_profile rt w event context tr r tr' :
  handler rt w (PDict event) context tr = (r, tr') ->
  tr' <> tr ->
  exists body user_data queries,
    Py.eq_str (Py.dict_get event "httpMethod" PNone) "OPTIONS" = false /\
    loads_val rt (Py.dict_get event "body" (PStr "{}")) = Ok body /\
    Py.get body "userData" (PDict []) = Ok user_data /\
    Py.truthy user_data = true /\
    build_search_queries rt user_data = Ok queries.
Proof.
  unfold handler, try_except, bind, lift. cbn [Py.get].
  destruct (Py.eq_str (Py.dict_get event "httpMethod" PNone) "OPTIONS")
    eqn:E0.
  { cbn. intros [= _ <-]. congruence. }
  destruct (loads_val rt _) as [body|e] eqn:E1;
    [|cbn; intros [= _ <-]; congruence].
  destruct (Py.get body "userData" (PDict [])) as [user_data|e] eqn:E2;
    [|cbn; intros [= _ <-]; congruence].
  destruct (Py.truthy user_data) eqn:E3; cbn [negb];
    [|cbn; intros [= _ <-]; congruence].
  destruct (build_search_queries rt user_data) as [queries|e] eqn:E4;
    [|cbn; intros [= _ <-]; congruence].
  intros _ _. exists body, user_data, queries. auto.
Qed.

Lemma handler_calls_need_profile_witness :
  exists body user_data queries,
    Py.eq_str (Py.dict_get Demo.smoker_event "httpMethod" PNone) "OPTIONS"
      = false /\
    loads_val Demo.event_runtime
      (Py.dict_get Demo.smoker_event "body" (PStr "{}")) = Ok body /\
    Py.get body "userData" (PDict []) = Ok user_data /\
    Py.truthy user_data = true /\
    build_search_queries Demo.event_runtime user_data = Ok queries.
Proof.
  refine (handler_calls_need_profile Demo.event_runtime Demo.dead_world
            Demo.smoker_event Demo.lambda []
            (Ok (respond 502 (error_body no_abstracts_message)))
            [ReqSearch Demo.smoking_query 2] _ _).
  - vm_compute. reflexivity.
  - discriminate.
Defined.

(** X3. The handler makes at most three search requests, each for at most
    two identifiers, then at most one fetch request, then at most one
    inference request, in that order; the inference request is made only
    after a fetch. *)
Theorem handler_request_budget rt w event context tr r tr' :
  handler rt w event context tr = (r, tr') ->
  exists searched rest,
    tr' = tr ++ map (fun q => ReqSearch q 2) searched ++ rest /\
    List.length searched <= 3 /\
    (rest = [] \/
     (exists ids, rest = [ReqFetch ids]) \/
     (exists ids message, rest = [ReqFetch ids; ReqInvoke message])).
Proof.
  assert (Hnone : forall x, x = tr ->
            exists searched rest,
              x = tr ++ map (fun q => ReqSearch q 2) searched ++ rest /\
              List.length searched <= 3 /\
              (rest = [] \/
               (exists ids, rest = [ReqFetch ids]) \/
               (exists ids message, rest = [ReqFetch ids; ReqInvoke message]))).
  { intros x ->. exists [], []. cbn. rewrite app_nil_r. split; auto. }
  destruct event as [| | | | | |event];
    try (cbn; intros [= _ <-]; auto; fail).
  unfold handler, try_except, bind, lift. cbn [Py.get].
  destruct (Py.eq_str (Py.dict_get event "httpMethod" PNone) "OPTIONS").
  { cbn. intros [= _ <-]. auto. }
  destruct (loads_val rt _) as [body|e]; [|cbn; intros [= _ <-]; auto].
  destruct (Py.get body "userData" (PDict [])) as [user_data|e];
    [|cbn; intros [= _ <-]; auto].
  destruct (Py.truthy user_data); cbn [negb]; [|cbn; intros [= _ <-]; auto].
  destruct (build_search_queries rt user_data) as [queries|e] eqn:Hq;
    [|cbn; intros [= _ <-]; auto].
  apply build_search_queries_bounds in Hq. destruct Hq as [[_ Hlen] _].
  clear Hnone.
  destruct (retrieve rt w queries tr) as [r1 tr1] eqn:Hret.
  apply retrieve_trace in Hret.
  destruct Hret as [searched [rest [-> [Hs [Hrest Hfetch]]]]].
  assert (Hlen' : List.length searched <= 3) by lia.
  destruct r1 as [abstracts|e].
  - destruct abstracts as [|a abstracts].
    + cbn. intros [= _ <-]. exists searched, rest.
      split; [reflexivity|]. split; [exact Hlen'|].
      destruct Hrest as [->|H]; auto.
    + destruct (Hfetch a abstracts eq_refl) as [ids ->].
      destruct (synthesize rt w user_data (a :: abstracts) context _)
        as [r2 tr2] eqn:Hsyn.
      apply synthesize_trace in Hsyn. destruct Hsyn as [Hany _].
      assert (Htr2 : exists rest',
                tr2 = tr ++ map (fun q => ReqSearch q 2) searched ++ rest' /\
                (rest' = [ReqFetch ids] \/
                 exists message, rest' = [ReqFetch ids; ReqInvoke message])).
      { destruct Hany as [->|[message ->]].
        - exists [ReqFetch ids]. auto.
        - exists [ReqFetch ids; ReqInvoke message].
          rewrite <- !app_assoc. split; [reflexivity|]. eauto. }
      destruct Htr2 as [rest' [-> Hrest']].
      destruct r2; cbn; intros [= _ <-]; exists searched, rest';
        (split; [reflexivity|]); (split; [exact Hlen'|]);
        destruct Hrest' as [->|[message ->]]; eauto.
  - cbn. intros [= _ <-]. exists searched, rest.
    split; [reflexivity|]. split; [exact Hlen'|].
    destruct Hrest as [->|H]; auto.
Qed.

Lemma handler_request_budget_witness :
  exists searched rest,
    [ReqSearch Demo.smoking_query 2] =
      [] ++ map (fun q => ReqSearch q 2) searched ++ rest /\
    List.length searched <= 3 /\
    (rest = [] \/
     (exists ids, rest = [ReqFetch ids]) \/
     (exists ids message, rest = [ReqFetch ids; ReqInvoke message])).
Proof.
  refine (handler_request_budget Demo.event_runtime Demo.dead_world
            (PDict Demo.smoker_event) Demo.lambda []
            (Ok (respond 502 (error_body no_abstracts_message)))
            [ReqSearch Demo.smoking_query 2] _).
  vm_compute. reflexivity.
Defined.

Lemma synthesize_ok rt w user_data abstracts context tr report tr' :
  synthesize rt w user_data abstracts context tr = (Ok report, tr') ->
  exists d message,
    report =
      PDict (Py.dict_set
               (Py.dict_set d "searchedAbstracts"
                  (PList (map abstract_py abstracts)))
               "timestamp" (PStr (aws_request_id context))) /\
    tr' = tr ++ [ReqInvoke message].
Proof.
  unfold synthesize, bind.
  destruct (invoke_bedrock rt w user_data abstracts tr) as [r1 tr1] eqn:H1.
  apply invoke_bedrock_trace in H1. destruct H1 as [_ Hok].
  destruct r1 as [v|e]; [|discriminate].
  destruct (Hok v eq_refl) as [message ->]. unfold lift.
  destruct v as [| | | | | |d]; cbn [Py.setitem_str]; try discriminate.
  intros [= <- <-]. exists d, message. auto.
Qed.

(** X4. A response with status 200 to a request that is not OPTIONS
    carries a JSON object whose timestamp is the request id of the
    invocation and whose searchedAbstracts is a list with at least one
    record, and the last external call was the inference request. *)
Theorem handler_ok_body rt w event context tr resp tr' :
  handler rt w (PDict event) context tr = (Ok resp, tr') ->
  statusCode resp = 200%Z ->
  Py.eq_str (Py.dict_get event "httpMethod" PNone) "OPTIONS" = false ->
  exists d evidence pre message,
    body resp = BodyJson (PDict d) /\
    Py.lookup d "timestamp" = Some (PStr (aws_request_id context)) /\
    Py.lookup d "searchedAbstracts" = Some (PList evidence) /\
    evidence <> [] /\
    tr' = pre ++ [ReqInvoke message].
Proof.
  unfold handler, try_except, bind, lift. cbn [Py.get].
  intros H Hcode Hopt. rewrite Hopt in H. revert H.
  destruct (loads_val rt _) as [body0|e];
    [|intros [= <- _]; discriminate].
  destruct (Py.get body0 "userData" (PDict [])) as [user_data|e];
    [|intros [= <- _]; discriminate].
  destruct (Py.truthy user_data); cbn [negb];
    [|intros [= <- _]; discriminate].
  destruct (build_search_queries rt user_data) as [queries|e];
    [|intros [= <- _]; discriminate].
  destruct (retrieve rt w queries tr) as [[abstracts|e] tr1];
    [|intros [= <- _]; discriminate].
  destruct abstracts as [|a abstracts]; [intros [= <- _]; discriminate|].
  destruct (synthesize rt w user_data (a :: abstracts) context tr1)
    as [[report|e] tr2] eqn:Hsyn; [|intros [= <- _]; discriminate].
  apply synthesize_ok in Hsyn. destruct Hsyn as [d [message [-> ->]]].
  intros [= <- <-].
  eexists. exists (map abstract_py (a :: abstracts)), tr1, message.
  split; [reflexivity|].
  split; [apply lookup_dict_set_same|].
  split; [rewrite lookup_dict_set_other by discriminate;
          apply lookup_dict_set_same|].
  split; [discriminate | reflexivity].
Qed.

Lemma handler_ok_body_witness :
  exists resp tr',
    handler Demo.full_runtime Demo.full_world (PDict Demo.smoker_event)
      Demo.lambda [] = (Ok resp, tr') /\
    statusCode resp = 200%Z /\
    exists d evidence pre message,
      body resp = BodyJson (PDict d) /\
      Py.lookup d "timestamp" = Some (PStr (aws_request_id Demo.lambda)) /\
      Py.lookup d "searchedAbstracts" = Some (PList evidence) /\
      evidence <> [] /\
      tr' = pre ++ [ReqInvoke message].
Proof.
  eexists. eexists.
  split; [vm_compute; reflexivity|].
  split; [reflexivity|].
  eapply (handler_ok_body Demo.full_runtime Demo.full_world
            Demo.smoker_event Demo.lambda []).
  - vm_compute. reflexivity.
  - reflexivity.
  - reflexivity.
Defined.

Lemma build_search_queries_not_numeric rt d v :
  Py.lookup d "bmi" = Some v ->
  not_numeric v ->
  build_search_queries rt (PDict d) = Raise TypeError.
Proof.
  intros Hbmi Hv. unfold build_search_queries. cbn [Py.get rbind].
  unfold Py.dict_get. rewrite Hbmi.
  destruct v; try contradiction; reflexivity.
Qed.

(** X5. A profile whose bmi is present and is null, a list or an object
    makes [build_search_queries] raise TypeError, whatever the other
    fields hold; the handler then answers 500 with the text of that error
    and makes no external call. *)
Theorem handler_not_numeric_bmi rt w event context tr body d v :
  Py.eq_str (Py.dict_get event "httpMethod" PNone) "OPTIONS" = false ->
  loads_val rt (Py.dict_get event "body" (PStr "{}")) = Ok body ->
  Py.get body "userData" (PDict []) = Ok (PDict d) ->
  Py.lookup d "bmi" = Some v ->
  not_numeric v ->
  build_search_queries rt (PDict d) = Raise TypeError /\
  handler rt w (PDict event) context tr =
    (Ok (respond 500 (error_body (exn_str rt TypeError))), tr).
Proof.
  intros Hopt Hbody Hud Hbmi Hv.
  pose proof (build_search_queries_not_numeric rt d v Hbmi Hv) as Hq.
  split; [exact Hq|].
  unfold handler, try_except, bind, lift. cbn [Py.get]. rewrite Hopt.
  rewrite Hbody, Hud.
  destruct d as [|kv d]; [discriminate|].
  cbn [Py.truthy negb]. rewrite Hq. reflexivity.
Qed.

Lemma handler_not_numeric_bmi_witness :
  build_search_queries Demo.null_bmi_runtime
    (PDict [("age", PInt 30); ("bmi", PNone)]) = Raise TypeError /\
  handler Demo.null_bmi_runtime Demo.full_world (PDict Demo.null_bmi_event)
    Demo.lambda [] =
    (Ok (respond 500 (error_body (exn_str Demo.null_bmi_runtime TypeError))),
     []).
Proof.
  refine (handler_not_numeric_bmi Demo.null_bmi_runtime Demo.full_world
            Demo.null_bmi_event Demo.lambda []
            (PDict [("userData", PDict [("age", PInt 30); ("bmi", PNone)])])
            [("age", PInt 30); ("bmi", PNone)] PNone _ _ _ _ _).
  - reflexivity.
  - vm_compute. reflexivity.
  - reflexivity.
  - reflexivity.
  - exact I.
Defined.

(** ** More on the query planner *)

Lemma hereditary_not rt (q : string) l :
  (forall x, ("hereditary " ++ x)%string <> q) ->
  Forall (fun p => p <> q) (map (hereditary rt) l).
Proof.
  intros H. induction l; constructor; auto. unfold hereditary. apply H.
Qed.

Lemma In_firstn_Forall (P : string -> Prop) n l x :
  Forall P l -> In x (firstn n l) -> P x.
Proof.
  intros H Hin. apply (Forall_firstn P n) in H.
  rewrite Forall_forall in H. auto.
Qed.

(** [Forall P] over the list the clauses build: [lit] proves [P] of a
    literal query, [her] of the family-history queries. *)
Ltac clause_queries lit her :=
  repeat first
    [ apply Forall_nil
    | apply Forall_append_if; [lit|]
    | her
    | apply Forall_app; split
    | apply Forall_cons; [lit|]
    | match goal with
      | |- Forall _ (if ?c then _ else _) => destruct c
      end ].

(** The steps every proof about a returned list starts with. *)
Ltac open_queries bmi conditions age H :=
  unfold build_search_queries;
  match goal with
  | |- context [Py.get ?u _ _] => destruct u; try discriminate
  end;
  cbn [Py.get rbind];
  destruct (Py.float_ _ _) as [bmi|]; [|discriminate];
  cbn [rbind];
  destruct (Py.iter _) as [conditions|]; [|discriminate];
  cbn [rbind];
  destruct (Py.int_ _ _) as [age|]; [|discriminate];
  cbn [rbind];
  intros H; apply Ok_inj in H.

(** X6. The fallback query is returned only on its own: a list that holds
    it is the one-element list of the fallback query, which happens when
    no clause matched. *)
Theorem build_search_queries_fallback_alone rt user_data qs :
  build_search_queries rt user_data = Ok qs ->
  In fallback_query qs ->
  qs = [fallback_query].
Proof.
  open_queries bmi conditions age H. subst qs.
  match goal with
  | |- In _ (firstn 3 (append_if _ _ ?L)) -> _ =>
      assert (HL : Forall (fun p => p <> fallback_query) L);
      [|revert HL; generalize L]
  end.
  - clause_queries ltac:(unfold fallback_query; discriminate)
      ltac:(apply hereditary_not; unfold fallback_query; discriminate).
  - intros L HL. destruct L as [|p L]; [reflexivity|].
    cbn [append_if]. intros Hin.
    exfalso. apply (In_firstn_Forall _ _ _ _ HL Hin). reflexivity.
Qed.

Lemma build_search_queries_fallback_alone_witness :
  build_search_queries (Demo.runtime_of []) (PDict [("age", PInt 30)]) =
    Ok [fallback_query] /\
  In fallback_query [fallback_query] /\
  [fallback_query] = [fallback_query].
Proof.
  assert (H : build_search_queries (Demo.runtime_of [])
                (PDict [("age", PInt 30)]) =
              Ok [fallback_query]) by (vm_compute; reflexivity).
  split; [exact H|]. split; [left; reflexivity|].
  exact (build_search_queries_fallback_alone (Demo.runtime_of [])
           (PDict [("age", PInt 30)]) [fallback_query] H
           (or_introl eq_refl)).
Defined.

Lemma starts_with_app q l m : starts_with q l -> starts_with q (l ++ m).
Proof. intros [rest ->]. exists (rest ++ m). reflexivity. Qed.

Lemma starts_with_append_if q c x l :
  starts_with q l -> starts_with q (append_if c x l).
Proof. destruct c; cbn; auto. apply starts_with_app. Qed.

Lemma starts_with_firstn q n l :
  starts_with q l -> starts_with q (firstn (S n) l).
Proof. intros [rest ->]. exists (firstn n rest). reflexivity. Qed.

(** X7. For a current smoker the smoking query comes first, whatever the
    rest of the profile adds: truncation never drops it. *)
Theorem build_search_queries_smoking_first rt d qs :
  Py.lookup d "smokingStatus" = Some (PStr "current") ->
  build_search_queries rt (PDict d) = Ok qs ->
  starts_with "smoking lung cancer risk factors epidemiology" qs.
Proof.
  intros Hs. unfold build_search_queries. cbn [Py.get rbind].
  unfold Py.dict_get. rewrite Hs.
  cbn [Py.eq_str].
  replace (String.eqb "current" "current") with true by reflexivity.
  replace (String.eqb "current" "former") with false by reflexivity.
  cbn [append_if app].
  destruct (Py.float_ _ _) as [bmi|]; [|discriminate]. cbn [rbind].
  destruct (Py.iter _) as [conditions|]; [|discriminate]. cbn [rbind].
  destruct (Py.int_ _ _) as [age|]; [|discriminate]. cbn [rbind].
  intros H. apply Ok_inj in H. subst qs.
  apply starts_with_firstn.
  repeat first
    [ apply starts_with_append_if
    | apply starts_with_app
    | match goal with
      | |- starts_with _ (if ?c then _ else _) => destruct c
      end ].
  all: eexists; reflexivity.
Qed.

Lemma build_search_queries_smoking_first_witness :
  starts_with "smoking lung cancer risk factors epidemiology"
    ["smoking lung cancer risk factors epidemiology"].
Proof.
  refine (build_search_queries_smoking_first (Demo.runtime_of [])
            Demo.smoker _ _ _).
  - reflexivity.
  - vm_compute. reflexivity.
Defined.

Lemma not_both_firstn (a b : string) n l :
  Forall (fun p => p <> a) l \/ Forall (fun p => p <> b) l ->
  ~ (In a (firstn n l) /\ In b (firstn n l)).
Proof.
  intros [H|H] [Ha Hb].
  - apply (In_firstn_Forall _ _ _ _ H Ha). reflexivity.
  - apply (In_firstn_Forall _ _ _ _ H Hb). reflexivity.
Qed.

Lemma eq_str_other v (a b : string) :
  Py.eq_str v a = true -> a <> b -> Py.eq_str v b = false.
Proof.
  destruct v; cbn; try discriminate.
  intros Ha Hab. apply String.eqb_eq in Ha. subst.
  apply String.eqb_neq. exact Hab.
Qed.

Ltac other_query :=
  first [ discriminate | unfold fallback_query; discriminate ].

Ltac other_queries :=
  clause_queries other_query ltac:(apply hereditary_not; other_query).

(** X8. The either-or clauses never both contribute: a returned list does
    not hold both BMI queries, nor both diet queries, nor both smoking
    queries, nor the prostate and the breast screening query together. *)
Theorem build_search_queries_exclusive rt user_data qs :
  build_search_queries rt user_data = Ok qs ->
  ~ (In "obesity BMI cancer risk endometrial breast colorectal" qs /\
     In "overweight cancer risk metabolic syndrome" qs) /\
  ~ (In "western diet processed food cancer risk" qs /\
     In "plant based diet cancer prevention" qs) /\
  ~ (In "smoking lung cancer risk factors epidemiology" qs /\
     In "former smoker cancer risk reduction" qs) /\
  ~ (In "prostate cancer age risk screening men" qs /\
     In "breast cancer age risk screening women mammography" qs).
Proof.
  open_queries bmi conditions age H. subst qs.
  split; [|split; [|split]]; apply not_both_firstn.
  - destruct (SFleb (Py.lit 30) bmi); [right | left]; other_queries.
  - match goal with
    | |- context [Py.eq_str ?v "western"] => destruct (Py.eq_str v "western")
    end; [right | left]; other_queries.
  - match goal with
    | |- context [Py.eq_str ?v "current"] =>
        destruct (Py.eq_str v "current") eqn:E;
        [rewrite (eq_str_other v "current" "former" E) by discriminate|]
    end; cbn [append_if]; [right | left]; other_queries.
  - match goal with
    | |- context [Py.eq_str ?v "male"] =>
        destruct (Py.eq_str v "male") eqn:E;
        [rewrite (eq_str_other v "male" "female" E) by discriminate|]
    end; rewrite ?andb_false_r; cbn [append_if]; [right | left];
      other_queries.
Qed.

Lemma build_search_queries_exclusive_witness :
  build_search_queries (Demo.runtime_of []) (PDict Demo.smoker) =
    Ok ["smoking lung cancer risk factors epidemiology"] /\
  ~ (In "smoking lung cancer risk factors epidemiology"
       ["smoking lung cancer risk factors epidemiology"] /\
     In "former smoker cancer risk reduction"
       ["smoking lung cancer risk factors epidemiology"]).
Proof.
  assert (H : build_search_queries (Demo.runtime_of []) (PDict Demo.smoker) =
              Ok ["smoking lung cancer risk factors epidemiology"])
    by (vm_compute; reflexivity).
  split; [exact H|].
  exact (proj1 (proj2 (proj2
           (build_search_queries_exclusive (Demo.runtime_of [])
              (PDict Demo.smoker) _ H)))).
Defined.

(** ** More on the search and the fetch *)

(** The cases in which the response holds no identifier list. *)
Ltac no_idlist :=
  cbn; split;
  [ intros H; apply Ok_inj in H; right; split; [auto|];
    intros v0 (b0 & d0 & e0 & Hb & Hd & He0 & Hi0); congruence
  | intros [(b0 & d0 & e0 & Hb & Hd & He0 & Hi0)|[-> _]];
    [congruence | reflexivity] ].

(** X9. For a query that can be url-encoded, [search_pubmed] returns the
    value under esearchresult.idlist when the response body is a JSON
    object that holds it, and the empty list in every other case: a
    transport failure, a body that [json.loads] does not accept or that is
    not an object, a missing esearchresult or idlist, an esearchresult that
    is not an object.  For a query that cannot be encoded, [urlencode]
    stands before the [try]: the function raises UnicodeEncodeError and
    makes no request. *)
Theorem search_pubmed_idlist rt w q n tr v :
  if encodable rt q then
    fst (search_pubmed rt w q n tr) = Ok v <->
    idlist_found rt (w tr (ReqSearch q n)) v \/
    (v = PList [] /\
     forall v', ~ idlist_found rt (w tr (ReqSearch q n)) v')
  else search_pubmed rt w q n tr = (Raise UnicodeEncodeError, tr).
Proof.
  unfold search_pubmed, urlencode, bind at 1, lift at 1.
  destruct (encodable rt q); [|reflexivity].
  unfold search_request, try_except, bind, call, lift, ret, loads,
    idlist_found.
  destruct (w tr (ReqSearch q n)) as [body|e]; cbn [fst]; [|no_idlist].
  destruct (json_loads rt body) as [data|e1] eqn:Hj; cbn [fst]; [|no_idlist].
  destruct data as [| | | | | |d]; try no_idlist.
  cbn [Py.get]. unfold Py.dict_get.
  destruct (Py.lookup d "esearchresult") as [er|] eqn:He; [|no_idlist].
  destruct er as [| | | | | |e]; try no_idlist.
  cbn [Py.get fst]. unfold Py.dict_get.
  destruct (Py.lookup e "idlist") as [ids|] eqn:Hi; [|no_idlist].
  cbn. split.
  - intros H. apply Ok_inj in H. subst. left. exists body, d, e. auto.
  - intros [(b0 & d0 & e0 & Hb & Hd & He0 & Hi0)|[-> Hno]].
    + congruence.
    + exfalso. apply (Hno ids). exists body, d, e. auto.
Qed.

(** X10. [fetch_abstracts] asks for all the identifiers in one request,
    joined by commas, when the joined text can be url-encoded; when it
    cannot, the function raises UnicodeEncodeError before the [try] and
    makes no request; for an empty list it returns no record and makes no
    request at all. *)
Theorem fetch_abstracts_one_request rt w ids tr :
  snd (fetch_abstracts rt w (map PStr ids) tr) =
    tr ++ match ids with
          | [] => []
          | _ => if encodable rt (Text.join "," ids)
                 then [ReqFetch (Text.join "," ids)] else []
          end /\
  (ids = [] -> fetch_abstracts rt w (map PStr ids) tr = (Ok [], tr)) /\
  (ids <> [] -> encodable rt (Text.join "," ids) = false ->
   fetch_abstracts rt w (map PStr ids) tr = (Raise UnicodeEncodeError, tr)).
Proof.
  split; [|split].
  - unfold fetch_abstracts. destruct ids as [|x ids].
    + cbn. rewrite app_nil_r. reflexivity.
    + change (PStr x :: map PStr ids) with (map PStr (x :: ids)).
      rewrite join_text. cbn [map].
      unfold bind, lift, try_except, call, ret, urlencode.
      destruct (encodable rt _); [|cbn; now rewrite app_nil_r].
      destruct (w tr _); reflexivity.
  - intros ->. reflexivity.
  - intros Hne Henc. unfold fetch_abstracts. destruct ids as [|x ids].
    + congruence.
    + change (PStr x :: map PStr ids) with (map PStr (x :: ids)).
      rewrite join_text. cbn [map].
      unfold bind, lift, urlencode. rewrite Henc. reflexivity.
Qed.

Lemma search_all_ok_trace rt w queries :
  forall acc tr r tr',
    search_all rt w queries acc tr = (Ok r, tr') ->
    tr' = tr ++ map (fun q => ReqSearch q 2) queries.
Proof.
  induction queries as [|q queries IH]; intros acc tr r tr'.
  - cbn. intros [= _ <-]. now rewrite app_nil_r.
  - cbn [search_all map]. unfold bind at 1.
    destruct (search_pubmed_cases rt w q 2 tr) as [[_ ->]|[_ [v ->]]];
      [discriminate|].
    unfold bind at 1. unfold lift at 1.
    destruct (Py.iter v); [|discriminate].
    intros E. apply IH in E. rewrite E, <- app_assoc. reflexivity.
Qed.

(** X17. When the searches return lists of text, the retrieval stage
    searches every query, then fetches once for the deduplicated
    identifiers, at most five of them, when their comma-joined text can be
    url-encoded; when it cannot, the stage raises UnicodeEncodeError
    without a fetch; when no search finds anything there is no fetch and
    the result is empty. *)
Theorem retrieve_requests rt w (answer : string -> list string) queries tr :
  (forall q tr', In q queries ->
     fst (search_pubmed rt w q 2 tr') = Ok (PList (map PStr (answer q)))) ->
  let ids := firstn 5 (keep_first (flat_map answer queries)) in
  snd (retrieve rt w queries tr) =
    tr ++ map (fun q => ReqSearch q 2) queries ++
    match ids with
    | [] => []
    | _ => if encodable rt (Text.join "," ids)
           then [ReqFetch (Text.join "," ids)] else []
    end /\
  List.length ids <= 5 /\
  (ids = [] -> fst (retrieve rt w queries tr) = Ok []) /\
  (ids <> [] -> encodable rt (Text.join "," ids) = false ->
   fst (retrieve rt w queries tr) = Raise UnicodeEncodeError).
Proof.
  intros H ids.
  pose proof (search_all_text rt w answer queries H [] tr) as Hfst.
  cbn [map app] in Hfst.
  unfold retrieve, collect_pmids, bind.
  destruct (search_all rt w queries [] tr) as [r tr1] eqn:E.
  cbn in Hfst. subst r.
  apply search_all_ok_trace in E. subst tr1.
  unfold lift. rewrite dedupe_cap_text. fold ids.
  split; [|split; [|split]].
  - destruct ids as [|x ids'] eqn:Eids.
    + cbn. now rewrite !app_nil_r.
    + unfold fetch_abstracts.
      change (PStr x :: map PStr ids') with (map PStr (x :: ids')).
      rewrite join_text. cbn [map].
      unfold bind, lift, try_except, call, ret, urlencode.
      destruct (encodable rt _); [|cbn [snd]; now rewrite app_nil_r].
      destruct (w _ _); cbn [snd]; rewrite <- app_assoc; reflexivity.
  - unfold ids. rewrite length_firstn. lia.
  - intros E. rewrite E. reflexivity.
  - intros Hne Henc. destruct ids as [|x ids'] eqn:Eids; [congruence|].
    unfold fetch_abstracts.
    change (PStr x :: map PStr ids') with (map PStr (x :: ids')).
    rewrite join_text. cbn [map].
    unfold bind, lift, urlencode. rewrite Henc. reflexivity.
Qed.

Lemma retrieve_requests_witness :
  (forall q tr', In q [Demo.smoking_query; Demo.overweight_query] ->
     fst (search_pubmed Demo.overlap_runtime Demo.overlap_world q 2 tr') =
     Ok (PList (map PStr (Demo.overlap_answer q)))) /\
  snd (retrieve Demo.overlap_runtime Demo.overlap_world
         [Demo.smoking_query; Demo.overweight_query] []) =
    [ReqSearch Demo.smoking_query 2; ReqSearch Demo.overweight_query 2;
     ReqFetch "A,B,C"] /\
  (forall q tr', In q [Demo.smoking_query] ->
     fst (search_pubmed Demo.surrogate_runtime Demo.surrogate_world q 2 tr') =
     Ok (PList (map PStr [Demo.surrogate]))) /\
  retrieve Demo.surrogate_runtime Demo.surrogate_world
    [Demo.smoking_query] [] =
    (Raise UnicodeEncodeError, [ReqSearch Demo.smoking_query 2]).
Proof.
  assert (H' : forall q tr', In q [Demo.smoking_query] ->
             fst (search_pubmed Demo.surrogate_runtime Demo.surrogate_world
                    q 2 tr') =
             Ok (PList (map PStr ((fun _ => [Demo.surrogate]) q)))).
  { intros q tr' [<-|[]]; vm_compute; reflexivity. }
  pose proof (retrieve_requests Demo.surrogate_runtime Demo.surrogate_world
                (fun _ => [Demo.surrogate]) [Demo.smoking_query] [] H')
    as [Hsnd [_ [_ Hfst]]].
  assert (Hraise : retrieve Demo.surrogate_runtime Demo.surrogate_world
                     [Demo.smoking_query] [] =
                   (Raise UnicodeEncodeError,
                    [ReqSearch Demo.smoking_query 2])).
  { rewrite (surjective_pairing (retrieve _ _ _ _)).
    rewrite Hsnd. rewrite Hfst; [reflexivity | discriminate | reflexivity]. }
  assert (H : forall q tr',
             In q [Demo.smoking_query; Demo.overweight_query] ->
             fst (search_pubmed Demo.overlap_runtime Demo.overlap_world
                    q 2 tr') =
             Ok (PList (map PStr (Demo.overlap_answer q)))).
  { intros q tr' [<-|[<-|[]]]; vm_compute; reflexivity. }
  split; [exact H|].
  split; [|split; [exact H' | exact Hraise]].
  exact (proj1 (retrieve_requests Demo.overlap_runtime Demo.overlap_world
                  Demo.overlap_answer
                  [Demo.smoking_query; Demo.overweight_query] [] H)).
Defined.

(** ** More on the synthesis *)

(** X13. A failure of the inference call is not absorbed and not retried:
    [invoke_bedrock] raises the very exception after exactly one request.
    The one exception that comes out changed is a JSONDecodeError. *)
Theorem invoke_bedrock_service_error rt w user_data abstracts tr message e :
  user_message rt user_data abstracts = Ok message ->
  w tr (ReqInvoke message) = Raise e ->
  e <> JSONDecodeError ->
  invoke_bedrock rt w user_data abstracts tr =
    (Raise e, tr ++ [ReqInvoke message]).
Proof.
  intros Hm Hw He.
  unfold invoke_bedrock, bind, lift, try_except, bedrock_text, call, throw.
  rewrite Hm. unfold bind, lift. rewrite Hw.
  destruct e; try reflexivity. congruence.
Qed.

Lemma invoke_bedrock_service_error_witness :
  exists message,
    user_message Demo.bedrock_runtime (PDict Demo.smoker) Demo.evidence =
      Ok message /\
    invoke_bedrock Demo.bedrock_runtime Demo.dead_world (PDict Demo.smoker)
      Demo.evidence [] = (Raise Demo.unreachable, [] ++ [ReqInvoke message]).
Proof.
  eexists.
  assert (Hm : user_message Demo.bedrock_runtime (PDict Demo.smoker)
                 Demo.evidence = Ok _) by (vm_compute; reflexivity).
  split; [exact Hm|].
  refine (invoke_bedrock_service_error Demo.bedrock_runtime Demo.dead_world
            (PDict Demo.smoker) Demo.evidence [] _ Demo.unreachable
            Hm eq_refl _).
  discriminate.
Defined.

(** X14. When the body of the inference response is itself not JSON, the
    handler of JSONDecodeError runs before [raw_text] is bound, its print
    fails, and [invoke_bedrock] raises UnboundLocalError instead of the
    JSONDecodeError. *)
Theorem invoke_bedrock_unbound rt w user_data abstracts tr message body :
  user_message rt user_data abstracts = Ok message ->
  w tr (ReqInvoke message) = Ok body ->
  json_loads rt body = Raise JSONDecodeError ->
  invoke_bedrock rt w user_data abstracts tr =
    (Raise UnboundLocalError, tr ++ [ReqInvoke message]).
Proof.
  intros Hm Hw Hj.
  unfold invoke_bedrock, bind, lift, try_except, bedrock_text, call, throw.
  rewrite Hm. unfold bind, lift. rewrite Hw.
  unfold response_text, loads. rewrite Hj. reflexivity.
Qed.

Lemma invoke_bedrock_unbound_witness :
  exists message,
    user_message (Demo.runtime_of []) (PDict Demo.smoker) Demo.evidence =
      Ok message /\
    json_loads (Demo.runtime_of []) (Demo.envelope_body Demo.prose) =
      Raise JSONDecodeError /\
    invoke_bedrock (Demo.runtime_of []) (Demo.bedrock_world Demo.prose)
      (PDict Demo.smoker) Demo.evidence [] =
      (Raise UnboundLocalError, [] ++ [ReqInvoke message]).
Proof.
  eexists.
  assert (Hm : user_message (Demo.runtime_of []) (PDict Demo.smoker)
                 Demo.evidence = Ok _) by (vm_compute; reflexivity).
  split; [exact Hm|]. split; [reflexivity|].
  exact (invoke_bedrock_unbound (Demo.runtime_of [])
           (Demo.bedrock_world Demo.prose) (PDict Demo.smoker)
           Demo.evidence [] _ _ Hm eq_refl eq_refl).
Defined.

(** X20. When [json.loads] rejects the stripped text and the diagnostic
    line, which quotes the first 500 characters of that text, cannot be
    encoded, the [print] of the handler of JSONDecodeError fails:
    [invoke_bedrock] raises UnicodeEncodeError instead of the
    JSONDecodeError, after its one request. *)
Theorem invoke_bedrock_unprintable rt w user_data abstracts tr message body
    text :
  user_message rt user_data abstracts = Ok message ->
  w tr (ReqInvoke message) = Ok body ->
  response_text rt body = Ok (PStr text) ->
  json_loads rt (strip_fences text) = Raise JSONDecodeError ->
  encodable rt (diagnostic rt (strip_fences text)) = false ->
  invoke_bedrock rt w user_data abstracts tr =
    (Raise UnicodeEncodeError, tr ++ [ReqInvoke message]).
Proof.
  intros Hm Hw Hr Hj Henc.
  unfold invoke_bedrock, bind, lift, try_except, bedrock_text, call.
  rewrite Hm. unfold bind, lift. rewrite Hw, Hr. cbn [as_text].
  unfold loads, print, throw, ret. rewrite Hj.
  cbn [is_JSONDecodeError]. rewrite Henc. reflexivity.
Qed.

Lemma invoke_bedrock_unprintable_witness :
  exists message,
    user_message Demo.garbled_runtime (PDict Demo.smoker) Demo.evidence =
      Ok message /\
    json_loads Demo.garbled_runtime (strip_fences Demo.garbled) =
      Raise JSONDecodeError /\
    encodable Demo.garbled_runtime
      (diagnostic Demo.garbled_runtime (strip_fences Demo.garbled)) = false /\
    invoke_bedrock Demo.garbled_runtime (Demo.bedrock_world Demo.garbled)
      (PDict Demo.smoker) Demo.evidence [] =
      (Raise UnicodeEncodeError, [] ++ [ReqInvoke message]).
Proof.
  eexists.
  assert (Hm : user_message Demo.garbled_runtime (PDict Demo.smoker)
                 Demo.evidence = Ok _) by (vm_compute; reflexivity).
  assert (Hr : response_text Demo.garbled_runtime
                 (Demo.envelope_body Demo.garbled) = Ok (PStr Demo.garbled))
    by (vm_compute; reflexivity).
  assert (Hj : json_loads Demo.garbled_runtime (strip_fences Demo.garbled) =
               Raise JSONDecodeError) by (vm_compute; reflexivity).
  assert (He : encodable Demo.garbled_runtime
                 (diagnostic Demo.garbled_runtime
                    (strip_fences Demo.garbled)) = false)
    by (vm_compute; reflexivity).
  split; [exact Hm|]. split; [exact Hj|]. split; [exact He|].
  exact (invoke_bedrock_unprintable Demo.garbled_runtime
           (Demo.bedrock_world Demo.garbled) (PDict Demo.smoker)
           Demo.evidence [] _ _ _ Hm eq_refl Hr Hj He).
Defined.

(** ** More on the deduplication *)

Lemma add_key_cases d v :
  (unhashable v /\ add_key d v = Raise TypeError) \/
  (~ unhashable v /\
   exists d', add_key d v = Ok d' /\
              (d' = d \/ exists k, d' = d ++ [(k, v)])).
Proof.
  unfold add_key.
  destruct v; cbn [key_of rbind unhashable];
    try (right; split; [tauto|];
         match goal with
         | |- context [has_key d ?k] =>
             destruct (has_key d k); eexists; split; eauto
         end);
    left; auto.
Qed.

Lemma fromkeys_into_cases items :
  forall d,
    (Exists unhashable items /\ fromkeys_into d items = Raise TypeError) \/
    (Forall (fun v => ~ unhashable v) items /\
     exists d', fromkeys_into d items = Ok d' /\
                forall v, In v (map snd d') ->
                          In v (map snd d) \/ In v items).
Proof.
  induction items as [|v items IH]; intros d.
  - right. split; [constructor|]. exists d. cbn. auto.
  - cbn [fromkeys_into].
    destruct (add_key_cases d v) as [[Hu ->]|[Hh [d' [-> Hd']]]].
    + left. split; [left; exact Hu | reflexivity].
    + cbn [rbind]. destruct (IH d') as [[Hex ->]|[Hall [d2 [-> Hin]]]].
      * left. split; [right; exact Hex | reflexivity].
      * right. split; [constructor; assumption|].
        exists d2. split; [reflexivity|].
        intros x Hx. destruct (Hin x Hx) as [Hx'|Hx'].
        -- destruct Hd' as [->|[k ->]]; [auto|].
           rewrite map_app in Hx'. apply in_app_or in Hx'.
           destruct Hx' as [Hx'|[<-|[]]]; cbn; auto.
        -- right. right. exact Hx'.
Qed.

(** X18. The deduplication of step 2 raises TypeError exactly when some
    identifier is a list or an object; in every other case it returns at
    most five of the identifiers it was given. *)
Theorem dedupe_cap_cases all_pmids :
  (Exists unhashable all_pmids /\ dedupe_cap all_pmids = Raise TypeError) \/
  (Forall (fun v => ~ unhashable v) all_pmids /\
   exists ids, dedupe_cap all_pmids = Ok ids /\
               List.length ids <= 5 /\
               forall v, In v ids -> In v all_pmids).
Proof.
  unfold dedupe_cap, fromkeys.
  destruct (fromkeys_into_cases all_pmids []) as [[Hex ->]|[Hall [d [-> Hin]]]].
  - left. auto.
  - right. split; [exact Hall|]. cbn [rbind].
    eexists. split; [reflexivity|]. split.
    + rewrite length_firstn. lia.
    + intros v Hv.
      assert (Hd : In v (map snd d)).
      { revert Hv. generalize (map snd d). generalize 5. clear.
        intros n l. revert n.
        induction l as [|y l IH]; intros [|n]; cbn; try tauto.
        intros [->|Hv]; [tauto | right; eauto]. }
      destruct (Hin v Hd) as [[]|Hv']. exact Hv'.
Qed.

(** ** More on the parse step *)

Lemma lstrip_first s c :
  first_char (Text.lstrip s) = Some c -> Text.isspace c = false.
Proof.
  induction s as [|a s IH]; cbn; [discriminate|].
  destruct (Text.isspace a) eqn:E; [exact IH|].
  cbn. intros [= <-]. exact E.
Qed.

Lemma rstrip_first s c :
  first_char (Text.rstrip s) = Some c -> first_char s = Some c.
Proof.
  destruct s as [|a s]; cbn; [discriminate|].
  destruct (Text.rstrip s); [destruct (Text.isspace a)|]; cbn;
    try discriminate; auto.
Qed.

Lemma rstrip_last s c :
  last_char (Text.rstrip s) = Some c -> Text.isspace c = false.
Proof.
  induction s as [|a s IH]; cbn; [discriminate|].
  destruct (Text.rstrip s) as [|b r] eqn:E.
  - destruct (Text.isspace a) eqn:Ea; cbn; [discriminate|].
    intros [= <-]. exact Ea.
  - cbn [last_char]. exact IH.
Qed.

Lemma strip_trimmed s : trimmed (Text.strip s).
Proof.
  unfold trimmed, Text.strip. split; intros c H.
  - apply rstrip_first in H. apply lstrip_first in H. exact H.
  - apply rstrip_last in H. exact H.
Qed.

(** X11. The title and the abstract of every record that
    [fetch_abstracts] returns have no whitespace at either end. *)
Theorem fetch_abstracts_trimmed rt w pmids tr rs r :
  fst (fetch_abstracts rt w pmids tr) = Ok rs ->
  In r rs ->
  trimmed (title r) /\ trimmed (abstract_text r).
Proof.
  intros H Hin.
  destruct (fetch_abstracts_cases rt w pmids tr rs H)
    as [->|[xml [Hf ->]]]; [contradiction|].
  apply parse_abstracts_In in Hin. destruct Hin as [article [Ha Hp]].
  destruct (parse_article_fields article r Hp)
    as [tm [am [_ [_ [-> [-> _]]]]]].
  split; apply strip_trimmed.
Qed.

Lemma fetch_abstracts_trimmed_witness :
  exists rs r,
    fst (fetch_abstracts (Demo.runtime_of []) (Demo.fetch_world Demo.xml_no_pmid)
           [PStr "7"] []) = Ok rs /\
    In r rs /\
    abstract_text r = "A cohort study." /\
    trimmed (title r) /\ trimmed (abstract_text r).
Proof.
  eexists. eexists.
  assert (H : fst (fetch_abstracts (Demo.runtime_of []) (Demo.fetch_world Demo.xml_no_pmid)
                     [PStr "7"] []) =
              Ok [{| title := "Diet and cancer";
                     abstract_text := "A cohort study.";
                     url := "https://pubmed.ncbi.nlm.nih.gov/unknown/";
                     doi := "https://pubmed.ncbi.nlm.nih.gov/unknown/";
                     year := None |}]).
  { vm_compute. reflexivity. }
  split; [exact H|]. split; [left; reflexivity|]. split; [reflexivity|].
  exact (fetch_abstracts_trimmed _ _ _ _ _ _ H (or_introl eq_refl)).
Defined.

(** ** The prompt *)

Lemma text_app_assoc (a b c : string) :
  ((a ++ b) ++ c = a ++ b ++ c)%string.
Proof. induction a as [|x a IH]; cbn; [reflexivity | now rewrite IH]. Qed.

Lemma text_app_nil_r (a : string) : (a ++ EmptyString = a)%string.
Proof. induction a as [|x a IH]; cbn; [reflexivity | now rewrite IH]. Qed.

Lemma infix_refl b : infix b b.
Proof. exists EmptyString, EmptyString. cbn. now rewrite text_app_nil_r. Qed.

Lemma infix_app_r b x y : infix b y -> infix b (x ++ y).
Proof.
  intros [pre [post ->]]. exists (x ++ pre)%string, post.
  now rewrite text_app_assoc.
Qed.

Lemma infix_app_l b x y : infix b x -> infix b (x ++ y).
Proof.
  intros [pre [post ->]]. exists pre, (post ++ y)%string.
  now rewrite !text_app_assoc.
Qed.

Lemma infix_trans a b c : infix a b -> infix b c -> infix a c.
Proof.
  intros Hab [pre [post ->]]. apply infix_app_r, infix_app_l. exact Hab.
Qed.

Lemma source_blocks_infix sep abstracts :
  forall k i a,
    nth_error abstracts i = Some a ->
    infix (source_block (k + i) a) (Text.join sep (source_blocks k abstracts)).
Proof.
  induction abstracts as [|a0 rest IH]; intros k i a Hnth.
  - destruct i; discriminate.
  - destruct i as [|i]; cbn in Hnth.
    + injection Hnth as <-. rewrite Nat.add_0_r. cbn [source_blocks].
      destruct rest; cbn [source_blocks Text.join].
      * apply infix_refl.
      * apply infix_app_l, infix_refl.
    + destruct rest as [|a1 rest]; [destruct i; discriminate|].
      specialize (IH (S k) i a Hnth).
      replace (k + S i) with (S k + i) by lia.
      cbn [source_blocks Text.join] in *.
      apply infix_app_r, infix_app_r. exact IH.
Qed.

(** X15. The prompt holds every evidence record: the record at position
    [i] appears as the source block numbered [i + 1], with its title, its
    url and its abstract. *)
Theorem user_message_sources rt user_data abstracts message i a :
  user_message rt user_data abstracts = Ok message ->
  nth_error abstracts i = Some a ->
  infix (source_block i a) message /\
  infix ("SOURCE [" ++ decimal (i + 1) ++ "]: " ++ title a) message /\
  infix ("URL: " ++ url a) message /\
  infix ("ABSTRACT: " ++ abstract_text a) message.
Proof.
  intros Hm Hnth.
  assert (Hblock : infix (source_block i a) message).
  { revert Hm. unfold user_message.
    destruct user_data; try discriminate. cbn [Py.get rbind].
    destruct (Py.join ", " _) as [family|]; [|discriminate].
    cbn [rbind]. intros Hm. apply Ok_inj in Hm. subst message.
    repeat match goal with
           | |- infix _ (?x ++ ?y)%string =>
               lazymatch x with
               | abstract_context _ => fail
               | _ => apply infix_app_r
               end
           end.
    apply infix_app_l. unfold abstract_context.
    apply (source_blocks_infix _ abstracts 0 i a Hnth). }
  split; [exact Hblock|].
  split; [|split]; apply (infix_trans _ (source_block i a)); try exact Hblock;
    unfold source_block.
  - exists EmptyString. eexists.
    rewrite !text_app_assoc. reflexivity.
  - do 5 apply infix_app_r. exists EmptyString. eexists.
    rewrite !text_app_assoc. reflexivity.
  - do 9 apply infix_app_r. apply infix_refl.
Qed.

Lemma user_message_sources_witness :
  exists message,
    user_message (Demo.runtime_of []) (PDict Demo.smoker) Demo.evidence =
      Ok message /\
    infix "URL: https://pubmed.ncbi.nlm.nih.gov/101/" message.
Proof.
  eexists.
  assert (Hm : user_message (Demo.runtime_of []) (PDict Demo.smoker)
                 Demo.evidence = Ok _) by (vm_compute; reflexivity).
  split; [exact Hm|].
  exact (proj1 (proj2 (proj2
           (user_message_sources (Demo.runtime_of []) (PDict Demo.smoker)
              Demo.evidence _ 0 _ Hm eq_refl)))).
Defined.

(** ** The markdown fences *)

(** X16. Fence stripping is the identity on the JSON inside: for text
    with no backquote, the text wrapped in a json fence, the text wrapped
    in a plain fence and the bare text all give the stripped text. *)
Theorem strip_fences_fenced j :
  lacks "`" j = true ->
  strip_fences ("```json" ++ nl ++ j ++ nl ++ "```") = Text.strip j /\
  strip_fences ("```" ++ nl ++ j ++ nl ++ "```") = Text.strip j /\
  strip_fences j = Text.strip j.
Proof.
  intros H. repeat split.
  - apply strip_fences_wrapped; [reflexivity | exact H].
  - apply strip_fences_wrapped; [reflexivity | exact H].
  - unfold strip_fences. rewrite <- (text_app_nil_r j) at 1.
    rewrite (remove_fence_clear j EmptyString H).
    change (Re.remove fence_re EmptyString) with EmptyString.
    rewrite text_app_nil_r. reflexivity.
Qed.

Lemma strip_fences_fenced_witness :
  lacks "`" Demo.cited_json = true /\
  strip_fences ("```json" ++ nl ++ Demo.cited_json ++ nl ++ "```") =
    Text.strip Demo.cited_json.
Proof.
  assert (H : lacks "`" Demo.cited_json = true) by (vm_compute; reflexivity).
  split; [exact H|].
  exact (proj1 (strip_fences_fenced Demo.cited_json H)).
Defined.

(** ** Markup in the parsed fields *)

Lemma tag_rest_cons a t :
  tag_rest (String a t) =
  if Ascii.eqb a ">" then None
  else match tag_rest t with
       | Some (n, gs) => Some (S n, gs)
       | None =>
           match Re.match_here [Re.Lit ">"] t with
           | Some (n, gs) => Some (S n, gs)
           | None => None
           end
       end.
Proof. reflexivity. Qed.

Lemma tag_here_raw c x :
  Re.match_alt tag_re (String c x) =
  match
    match (if Ascii.eqb "<" c then Some x else None) with
    | Some s' =>
        match tag_rest s' with
        | Some (n, gs) => Some (1 + n, gs)
        | None => None
        end
    | None => None
    end
  with
  | Some h => Some h
  | None => None
  end.
Proof. reflexivity. Qed.

Lemma tag_here c x :
  Re.match_alt tag_re (String c x) =
  if Ascii.eqb c "<" then
    match tag_rest x with
    | Some (n, gs) => Some (S n, gs)
    | None => None
    end
  else None.
Proof.
  rewrite tag_here_raw, (Ascii.eqb_sym "<" c).
  destruct (Ascii.eqb c "<"); [|reflexivity].
  destruct (tag_rest x) as [[n gs]|]; reflexivity.
Qed.

Lemma tag_rest_lacks x : lacks ">" x = true -> tag_rest x = None.
Proof.
  induction x as [|a t IH]; [reflexivity|].
  cbn [lacks]. intros H. apply andb_prop in H. destruct H as [Ha Ht].
  apply negb_true_iff in Ha. rewrite tag_rest_cons, Ha, (IH Ht).
  destruct t as [|b t]; [reflexivity|].
  cbn [lacks] in Ht. apply andb_prop in Ht. destruct Ht as [Hb _].
  apply negb_true_iff in Hb.
  cbn [Re.match_here Text.drop_prefix].
  rewrite (Ascii.eqb_sym ">" b), Hb. reflexivity.
Qed.

Lemma tag_rest_none x :
  tag_rest x = None ->
  x = EmptyString \/ (exists t, x = String ">" t) \/ lacks ">" x = true.
Proof.
  induction x as [|a t IH]; [auto|].
  rewrite tag_rest_cons.
  destruct (Ascii.eqb a ">") eqn:Ea.
  - apply Ascii.eqb_eq in Ea. subst. eauto.
  - destruct (tag_rest t) as [[n gs]|]; [discriminate|].
    intros H. right. right. cbn [lacks]. rewrite Ea. cbn [negb andb].
    destruct (IH eq_refl) as [->|[[t' ->]|Ht]]; auto.
    cbn in H. discriminate.
Qed.

Lemma sub_from_lacks r c s :
  lacks c s = true -> forall k, lacks c (Re.sub_from r s k) = true.
Proof.
  induction s as [|a s IH]; intros H k.
  - destruct k; cbn [Re.sub_from]; [|reflexivity].
    destruct (Re.match_alt r EmptyString) as [[[|n] gs]|]; reflexivity.
  - cbn [lacks] in H. apply andb_prop in H. destruct H as [Ha Hs].
    destruct k as [|k]; cbn [Re.sub_from]; [|auto].
    destruct (Re.match_alt r (String a s)) as [[[|n] gs]|];
      cbn [lacks]; rewrite ?Ha; cbn [andb]; auto.
Qed.

Lemma search_tag_cons c x :
  Re.match_alt tag_re (String c x) = None ->
  Re.search tag_re x = None ->
  Re.search tag_re (String c x) = None.
Proof. intros H Hx. cbn [Re.search]. rewrite H. exact Hx. Qed.

(** No tag is left after the removal. *)
Lemma remove_tag_free s :
  forall k, Re.search tag_re (Re.sub_from tag_re s k) = None.
Proof.
  induction s as [|c s IH]; intros k.
  - destruct k; reflexivity.
  - destruct k as [|k]; cbn [Re.sub_from]; [|apply IH].
    rewrite tag_here.
    destruct (Ascii.eqb c "<") eqn:Ec.
    + destruct (tag_rest s) as [[n gs]|] eqn:Hrest; [apply IH|].
      apply search_tag_cons; [|apply IH].
      rewrite tag_here, Ec.
      destruct (tag_rest_none s Hrest) as [->|[[t ->]|Hl]].
      * reflexivity.
      * cbn [Re.sub_from]. rewrite tag_here.
        replace (Ascii.eqb ">" "<") with false by reflexivity.
        rewrite tag_rest_cons.
        replace (Ascii.eqb ">" ">") with true by reflexivity.
        reflexivity.
      * rewrite (tag_rest_lacks _ (sub_from_lacks tag_re ">" s Hl 0)).
        reflexivity.
    + apply search_tag_cons; [|apply IH].
      rewrite tag_here, Ec. reflexivity.
Qed.

Lemma search_tail r c s :
  Re.search r (String c s) = None -> Re.search r s = None.
Proof.
  cbn [Re.search]. destruct (Re.match_alt r (String c s)) as [[n gs]|];
    [discriminate | auto].
Qed.

Lemma lstrip_tag_free s :
  Re.search tag_re s = None -> Re.search tag_re (Text.lstrip s) = None.
Proof.
  induction s as [|c s IH]; [auto|].
  intros H. cbn [Text.lstrip]. destruct (Text.isspace c); [|exact H].
  apply IH. exact (search_tail _ _ _ H).
Qed.

Lemma tag_rest_prefix x w : tag_rest (x ++ w) = None -> tag_rest x = None.
Proof.
  induction x as [|a t IH]; [reflexivity|].
  cbn [append]. rewrite !tag_rest_cons.
  destruct (Ascii.eqb a ">"); [reflexivity|].
  destruct (tag_rest (t ++ w)) as [[n gs]|]; [discriminate|].
  rewrite (IH eq_refl).
  destruct t as [|b t]; [reflexivity|].
  cbn [append Re.match_here Text.drop_prefix].
  destruct (Ascii.eqb ">" b); [discriminate | reflexivity].
Qed.

Lemma search_tag_prefix u w :
  Re.search tag_re (u ++ w) = None -> Re.search tag_re u = None.
Proof.
  induction u as [|c u IH]; [reflexivity|].
  cbn [append]. intros H.
  pose proof (search_tail _ _ _ H) as Htail.
  cbn [Re.search] in H.
  destruct (Re.match_alt tag_re (String c (u ++ w))) as [[n gs]|] eqn:E;
    [discriminate|].
  apply search_tag_cons; [|exact (IH Htail)].
  rewrite tag_here in E |- *.
  destruct (Ascii.eqb c "<"); [|reflexivity].
  destruct (tag_rest (u ++ w)) as [[n gs]|] eqn:R; [discriminate|].
  rewrite (tag_rest_prefix u w R). reflexivity.
Qed.

Lemma rstrip_prefix t : exists w, t = (Text.rstrip t ++ w)%string.
Proof.
  induction t as [|c t [w IH]]; [exists EmptyString; reflexivity|].
  cbn [Text.rstrip].
  destruct (Text.rstrip t) as [|b r].
  - destruct (Text.isspace c).
    + exists (String c t). reflexivity.
    + exists t. reflexivity.
  - exists w. cbn [append] in *. congruence.
Qed.

Lemma strip_tag_free s :
  Re.search tag_re s = None -> Re.search tag_re (Text.strip s) = None.
Proof.
  intros H. unfold Text.strip. apply lstrip_tag_free in H.
  destruct (rstrip_prefix (Text.lstrip s)) as [w Hw].
  rewrite Hw in H. exact (search_tag_prefix _ _ H).
Qed.

(** X12. No markup tag is left in the title and the abstract of a record
    that [fetch_abstracts] returns: the tag pattern matches nowhere in
    them. *)
Theorem fetch_abstracts_no_markup rt w pmids tr rs r :
  fst (fetch_abstracts rt w pmids tr) = Ok rs ->
  In r rs ->
  Re.search tag_re (title r) = None /\
  Re.search tag_re (abstract_text r) = None.
Proof.
  intros H Hin.
  destruct (fetch_abstracts_cases rt w pmids tr rs H)
    as [->|[xml [Hf ->]]]; [contradiction|].
  apply parse_abstracts_In in Hin. destruct Hin as [article [Ha Hp]].
  destruct (parse_article_fields article r Hp)
    as [tm [am [_ [_ [-> [-> _]]]]]].
  split; apply strip_tag_free, remove_tag_free.
Qed.

Lemma fetch_abstracts_no_markup_witness :
  exists rs r,
    fst (fetch_abstracts (Demo.runtime_of []) (Demo.fetch_world Demo.xml_no_pmid)
           [PStr "7"] []) = Ok rs /\
    In r rs /\
    title r = "Diet and cancer" /\
    Re.search tag_re (title r) = None /\
    Re.search tag_re (abstract_text r) = None.
Proof.
  eexists. eexists.
  assert (H : fst (fetch_abstracts (Demo.runtime_of []) (Demo.fetch_world Demo.xml_no_pmid)
                     [PStr "7"] []) =
              Ok [{| title := "Diet and cancer";
                     abstract_text := "A cohort study.";
                     url := "https://pubmed.ncbi.nlm.nih.gov/unknown/";
                     doi := "https://pubmed.ncbi.nlm.nih.gov/unknown/";
                     year := None |}]).
  { vm_compute. reflexivity. }
  split; [exact H|]. split; [left; reflexivity|]. split; [reflexivity|].
  exact (fetch_abstracts_no_markup _ _ _ _ _ _ H (or_introl eq_refl)).
Defined.

(** ** The 400 response *)

(** X19. The handler answers 400 exactly when the request is not OPTIONS
    and its body is JSON with a missing or empty userData; the answer is
    then the message "userData is required" and no external call has been
    made. *)
Theorem handler_bad_request rt w event context tr resp tr' :
  handler rt w (PDict event) context tr = (Ok resp, tr') ->
  (statusCode resp = 400%Z <-> lacks_user_data rt event) /\
  (statusCode resp = 400%Z ->
   tr' = tr /\ body resp = error_body "userData is required").
Proof.
  unfold handler, lacks_user_data, try_except, bind, lift. cbn [Py.get].
  destruct (Py.eq_str (Py.dict_get event "httpMethod" PNone) "OPTIONS")
    eqn:E0.
  { cbn. intros [= <- <-]. cbn. split; [|discriminate].
    split; [discriminate | intros [H _]; discriminate]. }
  destruct (loads_val rt _) as [body0|e] eqn:E1.
  2:{ intros [= <- <-]. cbn. split; [|discriminate].
      split; [discriminate|]. intros [_ (b & u & Hb & _)]. discriminate. }
  destruct (Py.get body0 "userData" (PDict [])) as [user_data|e] eqn:E2.
  2:{ intros [= <- <-]. cbn. split; [|discriminate].
      split; [discriminate|]. intros [_ (b & u & Hb & Hu & _)].
      congruence. }
  destruct (Py.truthy user_data) eqn:E3; cbn [negb].
  2:{ intros [= <- <-]. cbn. split; [|auto].
      split; [|reflexivity]. intros _. split; [reflexivity|].
      exists body0, user_data. auto. }
  assert (Hno : ~ (false = false /\
                   exists body user_data0,
                     Ok body0 = Ok body /\
                     Py.get body "userData" (PDict []) = Ok user_data0 /\
                     Py.truthy user_data0 = false)).
  { intros [_ (b & u & Hb & Hu & Ht)]. apply Ok_inj in Hb. subst b.
    rewrite E2 in Hu. apply Ok_inj in Hu. subst u. congruence. }
  destruct (build_search_queries rt user_data) as [queries|e].
  2:{ intros [= <- <-]. cbn. split; [|discriminate].
      split; [discriminate | intros H; destruct (Hno H)]. }
  destruct (retrieve rt w queries tr) as [[abstracts|e] tr1].
  2:{ intros [= <- <-]. cbn. split; [|discriminate].
      split; [discriminate | intros H; destruct (Hno H)]. }
  destruct abstracts as [|a abstracts].
  { intros [= <- <-]. cbn. split; [|discriminate].
    split; [discriminate | intros H; destruct (Hno H)]. }
  destruct (synthesize rt w user_data (a :: abstracts) context tr1)
    as [[report|e] tr2];
    intros [= <- <-]; cbn; (split; [|discriminate]);
    (split; [discriminate | intros H; destruct (Hno H)]).
Qed.

Lemma handler_bad_request_witness :
  handler Demo.bare_runtime Demo.full_world (PDict Demo.bare_event)
    Demo.lambda [] =
    (Ok (respond 400 (error_body "userData is required")), []) /\
  lacks_user_data Demo.bare_runtime Demo.bare_event.
Proof.
  assert (H : handler Demo.bare_runtime Demo.full_world
                (PDict Demo.bare_event) Demo.lambda [] =
              (Ok (respond 400 (error_body "userData is required")), []))
    by (vm_compute; reflexivity).
  split; [exact H|].
  exact (proj1 (proj1 (handler_bad_request _ _ _ _ _ _ _ H)) eq_refl).
Defined.

Lemma fetch_abstracts_one_request_witness :
  snd (fetch_abstracts (Demo.runtime_of []) (Demo.fetch_world Demo.xml_three)
         (map PStr ["101"; "102"; "103"]) []) =
  [ReqFetch "101,102,103"] /\
  fetch_abstracts (Demo.runtime_of []) (Demo.fetch_world Demo.xml_three)
    (map PStr []) [] = (Ok [], []) /\
  encodable Demo.surrogate_runtime (Text.join "," ["101"; Demo.surrogate]) =
    false /\
  fetch_abstracts Demo.surrogate_runtime (Demo.fetch_world Demo.xml_three)
    (map PStr ["101"; Demo.surrogate]) [] = (Raise UnicodeEncodeError, []).
Proof.
  split; [|split; [|split]].
  - exact (proj1 (fetch_abstracts_one_request (Demo.runtime_of [])
                    (Demo.fetch_world Demo.xml_three)
                    ["101"; "102"; "103"] [])).
  - exact (proj1 (proj2 (fetch_abstracts_one_request (Demo.runtime_of [])
                           (Demo.fetch_world Demo.xml_three) [] []))
             eq_refl).
  - reflexivity.
  - refine (proj2 (proj2 (fetch_abstracts_one_request Demo.surrogate_runtime
                            (Demo.fetch_world Demo.xml_three)
                            ["101"; Demo.surrogate] [])) _ eq_refl).
    discriminate.
Defined.
